(** * Skybrush Live: UAV list, mission mapping, layers and map features

    A shallow embedding of the parts of the operator console that the
    specification talks about, followed by the properties established
    about them.

    - [JS]          : the JavaScript values and operators the sources use
    - [UAVList]     : src/views/uavs/UAVList.jsx (item builders, toolbars,
                      section selection)
    - [Mission]     : the mission mapping store and the displayed-id-list
                      selector, which live outside the available sources
    - [UAVFeature]  : the OpenLayers feature of a UAV
    - [Layers]      : layer types and [createNewLayer]
    - [GeoJSON]     : the settings panel of the GeoJSON layer
    - [Reference], [MissionReference], [Samples] : the rules of the
                      specification written out, and concrete data
    - [Hotkeys], [NearestItemTooltip], [GeoJSONPanel],
      [GeoJSONVectorSource], [GeoJSONLayer] : the hotkey bindings, the
                      tooltip and the rest of the GeoJSON layer
    - [JSFacts] ... [GeoJSONFacts] : the properties, module by module
    - [UAVListMore] ... [NearestItemTooltipFacts] : further properties
                      of the same code *)

From Stdlib Require Import ZArith QArith List String Bool Lia.
From stdpp Require Import base decidable option list strings gmap pretty.

Open Scope Z_scope.
Open Scope string_scope.
Open Scope list_scope.

(* ================================================================== *)
(** * JavaScript values *)
(* ================================================================== *)

Module JS.

(** Primitive values as the user interface code sees them.  Numbers are
    the integers plus NaN (mission slot indices, cursors, counters);
    [VObject r] is any object, function or React element, known only by
    its reference [r]. *)
Inductive value : Type :=
| VUndefined
| VNull
| VBool (b : bool)
| VNumber (n : Z)
| VNaN
| VString (s : string)
| VObject (r : positive).

#[export] Instance value_eq_dec : EqDecision value.
Proof. solve_decision. Defined.

(** ToBoolean. *)
Definition truthy (v : value) : bool :=
  match v with
  | VUndefined | VNull | VNaN => false
  | VBool b => b
  | VNumber n => negb (n =? 0)%Z
  | VString s => negb (String.eqb s "")
  | VObject _ => true
  end.

(** [a || b] *)
Definition or_else (a b : value) : value := if truthy a then a else b.

(** [a === b]: NaN is not equal to itself; objects compare by reference. *)
Definition strict_eq (a b : value) : bool :=
  match a, b with
  | VNaN, _ | _, VNaN => false
  | _, _ => bool_decide (a = b)
  end.

(** SameValueZero, the comparison of [Array.prototype.includes] and of
    lodash's [difference] and [union]: as [===], but NaN equals NaN. *)
Definition same_value_zero (a b : value) : bool := bool_decide (a = b).

Definition includes (l : list value) (v : value) : bool :=
  existsb (same_value_zero v) l.

(** lodash [isNil] *)
Definition isNil (v : value) : bool :=
  match v with VUndefined | VNull => true | _ => false end.

(** ToString, as used by template literals and property keys (integers
    in decimal notation). *)
Definition to_string (v : value) : string :=
  match v with
  | VUndefined => "undefined"
  | VNull => "null"
  | VBool true => "true"
  | VBool false => "false"
  | VNumber n => pretty n
  | VNaN => "NaN"
  | VString s => s
  | VObject _ => "[object Object]"
  end.

(** ToNumber on the values whose conversion is fixed by the language;
    [None] is NaN.  The conversion of strings and objects is left to the
    caller ([exotic]). *)
Definition to_number (exotic : value -> option Z) (v : value) : option Z :=
  match v with
  | VUndefined | VNaN => None
  | VNull => Some 0
  | VBool b => Some (if b then 1 else 0)
  | VNumber n => Some n
  | VString _ | VObject _ => exotic v
  end.

(** [a < b] and [a >= b] on numbers: both are false as soon as one side
    is NaN. *)
Definition lt (exotic : value -> option Z) (a b : value) : bool :=
  match to_number exotic a, to_number exotic b with
  | Some x, Some y => (x <? y)%Z
  | _, _ => false
  end.

Definition ge (exotic : value -> option Z) (a b : value) : bool :=
  match to_number exotic a, to_number exotic b with
  | Some x, Some y => (x >=? y)%Z
  | _, _ => false
  end.

(** lodash [difference]: the elements of [array] not found in [values],
    in order, duplicates of [array] kept. *)
Definition difference (array values : list value) : list value :=
  List.filter (fun x => negb (includes values x)) array.

(** lodash [uniq] (baseUniq): walk the array and push every value not
    yet in the result; [union a b] is [uniq] of the concatenation. *)
Definition push_unique (acc : list value) (x : value) : list value :=
  if includes acc x then acc else acc ++ [x].

Definition uniq (l : list value) : list value :=
  fold_left push_unique l [].

Definition union (a b : list value) : list value := uniq (a ++ b).

(** A function that may throw. *)
Inductive result (A : Type) : Type :=
| Ok (a : A)
| Throw (error : string).
Arguments Ok {A} a.
Arguments Throw {A} error.

End JS.

(* ================================================================== *)
(** * src/views/uavs/UAVList.jsx *)
(* ================================================================== *)

Module UAVList.
Import JS.

(** A bucket entry is a JavaScript array [[uavId, missionIndex,
    proposedLabel]]; arrays have an identity, which is what
    [item === deletionMarker] looks at. *)
Record item : Type := Item { item_ref : positive; elems : list value }.

(** [const [uavId, missionIndex, proposedLabel] = item]: a missing
    position reads as [undefined]. *)
Definition at_index (i : nat) (it : item) : value := nth i (elems it) VUndefined.
Definition item_uavId := at_index 0.
Definition item_missionIndex := at_index 1.
Definition item_proposedLabel := at_index 2.

Definition same_object (a b : item) : bool :=
  bool_decide (item_ref a = item_ref b).

(** The actions the component dispatches to the store. *)
Inductive action : Type :=
| setSelectedUAVIds (ids : list value)
| adjustMissionMapping (uavId to : value)
| startMappingEditorSessionAtSlot (slot : value).

(** What the builders render inside a list item. *)
Inductive node : Type :=
| MappingSlotEditor
| DronePlaceholder (editing : bool) (label : value) (status : string)
| DroneAvatar (id : value) (editing : bool) (label : value) (selected : bool)
| DroneStatusLine (id : value) (label : value) (selected : bool).

Section Builders.
(** Browser events are opaque; a click handler maps the event to the
    actions it dispatches, a drop handler does so for the dropped UAV
    id. *)
Variable Event : Type.
Definition ClickHandler : Type := Event -> list action.
Definition DropHandler : Type := value -> list action.

(** [formatMissionId] comes from utils/formatting and [deletionMarker]
    from the selectors of the view; neither is part of the available
    sources, so both are taken as given. *)
Variable formatMissionId : value -> value.
Variable deletionMarker : item.

(** A [<DroneListItem>] with its props and children.  A prop that is
    not passed is [None] (for [fill]: [false]). *)
Record DroneListItem : Type := {
  p_key : value;
  p_onClick : option ClickHandler;
  p_onDrop : option DropHandler;
  p_editing : bool;
  p_selected : bool;
  p_fill : bool;
  p_draggable : option bool;
  p_uavId : option value;
  p_stretch : bool;
  p_children : list node
}.

(** The second argument of both builders ([itemFactoryOptions]).  A
    falsy [onDropped] or [onSelected] is [None]. *)
Record options : Type := {
  draggable : bool;
  isInEditMode : bool;
  mappingSlotBeingEdited : value;
  onDropped : option (value -> DropHandler);
  onSelected : option (value -> value -> ClickHandler);
  selectedUAVIds : list value;
  showMissionIds : bool
}.

(** [mappingSlotBeingEdited !== undefined &&
     missionIndex === mappingSlotBeingEdited] *)
Definition editingItem (o : options) (it : item) : bool :=
  negb (strict_eq (mappingSlotBeingEdited o) VUndefined)
  && strict_eq (item_missionIndex it) (mappingSlotBeingEdited o).

(** The [label] constant of [createGridItems] (lines 145-151). *)
Definition gridLabel (o : options) (it : item) : value :=
  let uavId := item_uavId it in
  let missionIndex := item_missionIndex it in
  or_else (item_proposedLabel it)
    (if showMissionIds o
     then if negb (strict_eq missionIndex VUndefined)
             && (negb (isInEditMode o) || strict_eq uavId VUndefined)
          then formatMissionId missionIndex
          else uavId
     else uavId).

(** The [label] constant of [createListItems] (lines 217-223). *)
Definition listLabel (o : options) (it : item) : value :=
  let uavId := item_uavId it in
  let missionIndex := item_missionIndex it in
  or_else (item_proposedLabel it)
    (if showMissionIds o
     then if negb (strict_eq missionIndex VUndefined)
          then formatMissionId missionIndex
          else uavId
     else uavId).

(** [uavId === undefined ? `placeholder-${label || 'null'}` : uavId] *)
Definition itemKey (uavId label : value) : value :=
  if strict_eq uavId VUndefined
  then VString ("placeholder-" +:+ to_string (or_else label (VString "null")))
  else uavId.

(** [{editingThisItem && <MappingSlotEditor />}]: React renders
    nothing for [false]. *)
Definition slotEditorIf (editing : bool) : list node :=
  if editing then [MappingSlotEditor] else [].

Definition createGridItem (o : options) (it : item) : DroneListItem :=
  let uavId := item_uavId it in
  let missionIndex := item_missionIndex it in
  let editingThisItem := editingItem o it in
  let selected := includes (selectedUAVIds o) uavId in
  let onClick := (fun f => f uavId missionIndex) <$> onSelected o in
  let onDrop := (fun f => f missionIndex) <$> onDropped o in
  let fill := same_object it deletionMarker in
  let label := gridLabel o it in
  let key := itemKey uavId label in
  let shown := if editingThisItem then VString "" else label in
  if strict_eq uavId VUndefined
  then {| p_key := key; p_onClick := onClick; p_onDrop := onDrop;
          p_editing := editingThisItem; p_selected := selected;
          p_fill := fill; p_draggable := None; p_uavId := None;
          p_stretch := false;
          p_children :=
            slotEditorIf editingThisItem ++
            [DronePlaceholder editingThisItem shown
               (if strict_eq missionIndex VUndefined then "error" else "off")] |}
  else {| p_key := key; p_onClick := onClick; p_onDrop := onDrop;
          p_editing := editingThisItem; p_selected := selected;
          p_fill := fill; p_draggable := Some (draggable o);
          p_uavId := Some uavId; p_stretch := false;
          p_children :=
            slotEditorIf editingThisItem ++
            [DroneAvatar uavId editingThisItem shown selected] |}.

Definition createGridItems (items : list item) (o : options) : list DroneListItem :=
  map (createGridItem o) items.

Definition createListItem (o : options) (it : item) : DroneListItem :=
  let uavId := item_uavId it in
  let missionIndex := item_missionIndex it in
  let editing := editingItem o it in
  let selected := includes (selectedUAVIds o) uavId in
  let label := listLabel o it in
  {| p_key := itemKey uavId label;
     p_onClick := (fun f => f uavId missionIndex) <$> onSelected o;
     p_onDrop := (fun f => f missionIndex) <$> onDropped o;
     p_editing := editing; p_selected := selected;
     p_fill := same_object it deletionMarker;
     p_draggable := None; p_uavId := None; p_stretch := true;
     p_children := [DroneStatusLine uavId label selected] |}.

Definition createListItems (items : list item) (o : options) : list DroneListItem :=
  map (createListItem o) items.

End Builders.

(** ** The presentation component *)

(** The three display buckets, the per-bucket checkbox state, and the
    lookup of a bucket by the name carried by the subheader
    ([object[value]]; only own properties are modelled). *)
Record DisplayedIdList : Type := {
  mainUAVIds : list item;
  spareUAVIds : list item;
  extraSlots : list item
}.

Record CheckboxInfo : Type := {
  checked : bool;
  disabled : bool;
  indeterminate : bool
}.

Record SelectionInfo : Type := {
  info_mainUAVIds : CheckboxInfo;
  info_spareUAVIds : CheckboxInfo;
  info_extraSlots : CheckboxInfo
}.

Definition bucket (d : DisplayedIdList) (name : string) : option (list item) :=
  if String.eqb name "mainUAVIds" then Some (mainUAVIds d)
  else if String.eqb name "spareUAVIds" then Some (spareUAVIds d)
  else if String.eqb name "extraSlots" then Some (extraSlots d)
  else None.

Definition bucketInfo (i : SelectionInfo) (name : string) : option CheckboxInfo :=
  if String.eqb name "mainUAVIds" then Some (info_mainUAVIds i)
  else if String.eqb name "spareUAVIds" then Some (info_spareUAVIds i)
  else if String.eqb name "extraSlots" then Some (info_extraSlots i)
  else None.

Section Presentation.
Variable Event : Type.
Variable formatMissionId : value -> value.
Variable deletionMarker : item.

(** [createSelectionHandlerFactory] of components/helpers/lists: given
    the current selection it yields the click handler of an item. *)
Variable createSelectionHandlerFactory :
  list value -> value -> value -> ClickHandler Event.

(** ToNumber of strings and objects, for the comparisons of the edit
    cursor with zero. *)
Variable toNumberOther : value -> option Z.

Record UAVListSectionView : Type := {
  s_label : string;
  s_value : string;
  s_info : CheckboxInfo;
  s_layout : string;
  s_items : list (DroneListItem Event)
}.

Definition itemFactoryOf (layout : string) :=
  if String.eqb layout "grid"
  then createGridItems Event formatMissionId deletionMarker
  else createListItems Event formatMissionId deletionMarker.

(** [UAVListSection]: nothing is rendered for an empty bucket unless
    [forceVisible]. *)
Definition UAVListSection (forceVisible : bool) (ids : list item)
    (itemFactoryOptions : options Event) (layout label val : string)
    (info : CheckboxInfo) : option UAVListSectionView :=
  if (length ids <=? 0)%nat && negb forceVisible then None
  else Some {| s_label := label; s_value := val; s_info := info;
               s_layout := if String.eqb layout "grid" then "grid" else "list";
               s_items := itemFactoryOf layout ids itemFactoryOptions |}.

Record props : Type := {
  editingMapping : bool;
  layout : string;
  prop_mappingSlotBeingEdited : value;
  prop_selectedUAVIds : list value;
  selectionInfo : SelectionInfo;
  prop_showMissionIds : bool;
  uavIds : DisplayedIdList
}.

(** What [UAVListPresentation] renders: the [in] flag of each of the
    three toolbars, the two sections, the bottom bar and whether the
    whole is wrapped in a drag-and-drop provider. *)
Record view : Type := {
  uavToolbar_in : bool;
  mappingEditorToolbar_in : bool;
  mappingSlotEditorToolbar_in : bool;
  assignedSection : option UAVListSectionView;
  spareSection : option UAVListSectionView;
  bottomBar : option (list (DroneListItem Event));
  dndProvider : bool
}.

Definition onDropProp (targetIndex : value) : DropHandler :=
  fun droppedUAVId => [adjustMissionMapping droppedUAVId targetIndex].

Definition onStartEditing (uavId missionIndex : value) : ClickHandler Event :=
  fun _ => [startMappingEditorSessionAtSlot missionIndex].

Definition itemFactoryOptionsOf (p : props) : options Event :=
  {| draggable := editingMapping p;
     isInEditMode := editingMapping p;
     mappingSlotBeingEdited := prop_mappingSlotBeingEdited p;
     onDropped := if editingMapping p then Some onDropProp else None;
     onSelected :=
       Some (if editingMapping p then onStartEditing
             else createSelectionHandlerFactory (prop_selectedUAVIds p));
     selectedUAVIds := prop_selectedUAVIds p;
     showMissionIds := prop_showMissionIds p |}.

Definition UAVListPresentation (p : props) : view :=
  let o := itemFactoryOptionsOf p in
  let cursor := prop_mappingSlotBeingEdited p in
  {| uavToolbar_in := negb (editingMapping p);
     mappingEditorToolbar_in :=
       editingMapping p && lt toNumberOther cursor (VNumber 0);
     mappingSlotEditorToolbar_in :=
       editingMapping p && ge toNumberOther cursor (VNumber 0);
     assignedSection :=
       UAVListSection false (mainUAVIds (uavIds p)) o (layout p)
         "Assigned UAVs" "mainUAVIds" (info_mainUAVIds (selectionInfo p));
     spareSection :=
       UAVListSection (editingMapping p) (spareUAVIds (uavIds p)) o (layout p)
         "Spare UAVs" "spareUAVIds" (info_spareUAVIds (selectionInfo p));
     bottomBar :=
       if (0 <? length (extraSlots (uavIds p)))%nat
       then Some (createGridItems Event formatMissionId deletionMarker
                    (extraSlots (uavIds p)) o)
       else None;
     dndProvider := editingMapping p |}.

End Presentation.

(** ** The connected component: [onSelectSection] *)

Section Connected.
(** The store state and the selectors the component is connected to
    (views/uavs/selectors and selectors/selection). *)
Variable State : Type.
Variable getDisplayedIdList : State -> DisplayedIdList.
Variable getSelectedUAVIds : State -> list value.
Variable getSelectionInfo : State -> SelectionInfo.

(** [displayedIdsAndLabels.reduce(...)]: the non-nil first components,
    in order. *)
Definition displayedIdsOf (displayedIdsAndLabels : list item) : list value :=
  fold_left
    (fun acc idAndLabel =>
       if negb (isNil (at_index 0 idAndLabel))
       then acc ++ [at_index 0 idAndLabel] else acc)
    displayedIdsAndLabels [].

(** The thunk dispatched when the checkbox of the section named
    [value] is clicked; the result lists the actions it dispatches. *)
Definition onSelectSection (val : string) (st : State) : list action :=
  let displayedIdsAndLabels := bucket (getDisplayedIdList st) val in
  let selected := getSelectedUAVIds st in
  let selectionInfo := bucketInfo (getSelectionInfo st) val in
  match selectionInfo, displayedIdsAndLabels with
  | Some info, Some entries =>
      let displayedIds := displayedIdsOf entries in
      let newSelection :=
        if checked info
        then difference selected displayedIds
        else union selected displayedIds in
      [setSelectedUAVIds newSelection]
  | _, _ => []
  end.

End Connected.

End UAVList.

(* ================================================================== *)
(** * Mission mapping store and displayed-id-list selector *)
(* ================================================================== *)

Module Mission.

(** UAV identifiers are opaque strings; a mapping slot is either empty
    or holds one of them. *)
(** The edit cursor: [CursorNull] when not editing, otherwise the
    argument of [startMappingEditorSessionAtSlot] ([None] for
    undefined). *)
Inductive Cursor : Type :=
| CursorNull
| CursorAt (slotIndex : option Z).

Record State : Type := {
  fleet : list string;
  mapping : list (option string);
  editCursor : Cursor;
  selection : list string
}.

Inductive action : Type :=
| adjustMissionMapping (uavId : string) (to : option nat)
| startMappingEditorSessionAtSlot (slotIndex : option Z).

(** The identifiers that occupy a slot, in slot order. *)
Definition mappedIds (m : list (option string)) : list string := omap id m.

(** Every identifier occupies at most one slot. *)
Definition wellFormed (m : list (option string)) : Prop :=
  forall (uavId : string) (i j : nat),
    m !! i = Some (Some uavId) -> m !! j = Some (Some uavId) -> i = j.

(** Modelled from the spec: the reducer of [adjustMissionMapping]
    (features/mission/slice) is missing from the sources.  Section 4.2:
    the call moves [uavId] into [slotIndex], vacating any slot it
    previously occupied; a different UAV that occupied [slotIndex]
    becomes unmapped.  A drop on a target without slot index ([to]
    undefined, the "drop here to unassign" target of section 4.3) only
    vacates.  The mapping keeps its length (one entry per slot), so a
    slot index beyond it names no slot. *)
Definition vacate (uavId : string) (m : list (option string)) : list (option string) :=
  (fun slot => if decide (slot = Some uavId) then None else slot) <$> m.

Definition adjustMapping (uavId : string) (to : option nat)
    (m : list (option string)) : list (option string) :=
  match to with
  | Some slotIndex => <[slotIndex := Some uavId]> (vacate uavId m)
  | None => vacate uavId m
  end.

(** Modelled from the spec: the reducer of the mission slice, one
    synchronous transition per dispatched action (sections 4.2 and 5). *)
Definition reduce (st : State) (a : action) : State :=
  match a with
  | adjustMissionMapping uavId to =>
      {| fleet := fleet st; mapping := adjustMapping uavId to (mapping st);
         editCursor := editCursor st; selection := selection st |}
  | startMappingEditorSessionAtSlot slotIndex =>
      {| fleet := fleet st; mapping := mapping st;
         editCursor := CursorAt slotIndex; selection := selection st |}
  end.

(** The states a subscriber of the store can observe while the actions
    are dispatched one after the other. *)
Fixpoint observableStates (st : State) (actions : list action) : list State :=
  st :: match actions with
        | [] => []
        | a :: rest => observableStates (reduce st a) rest
        end.

Definition run (st : State) (actions : list action) : State :=
  fold_left reduce actions st.

(** A display bucket entry: (uavId | undefined, missionIndex | undefined,
    proposedLabel | undefined). *)
Definition Entry : Type := option string * option nat * option string.

Record DisplayedIdList : Type := {
  mainUAVIds : list Entry;
  spareUAVIds : list Entry;
  extraSlots : list Entry
}.

Section Selector.
(** The spec leaves open when exactly an extra drop target is shown. *)
Variable extraSlotsOf : State -> list Entry.

(** Modelled from the spec: [getDisplayedIdList] (views/uavs/selectors)
    is missing from the sources.  Section 4.3: [mainUAVIds] has, for
    each slot index in mapping order, the entry (uavId or undefined,
    slotIndex, undefined); [spareUAVIds] has every fleet id not present
    in the mapping, in fleet order, as (uavId, undefined, undefined). *)
Definition getDisplayedIdList (st : State) : DisplayedIdList :=
  {| mainUAVIds := imap (fun slotIndex slot => (slot, Some slotIndex, None)) (mapping st);
     spareUAVIds :=
       (fun uavId => (Some uavId, None, None)) <$>
         filter (fun uavId => uavId ∉ mappedIds (mapping st)) (fleet st);
     extraSlots := extraSlotsOf st |}.
End Selector.

(** The real identifiers of a bucket. *)
Definition idsOf (entries : list Entry) : list string :=
  omap (fun e : Entry => e.1.1) entries.

End Mission.

(* ================================================================== *)
(** * The OpenLayers feature of a UAV *)
(* ================================================================== *)

Module UAVFeature.
Import JS.

(** Objects created by the feature are identified by a reference; the
    icons are mutable ([setRotation]) and shared between the feature's
    fields and its style array, so they live in a store of their own. *)
Local Open Scope N_scope.

Record Icon : Type := {
  rotateWithView : bool;
  rotation : value;
  snapToPixel : bool;
  src : string
}.

Record Text : Type := {
  font : string;
  offsetY : Z;
  text : value;
  textAlign : string
}.

Inductive StyleContent : Type :=
| Image (icon : N)
| Label (t : Text).

Record Style : Type := { style_ref : N; content : StyleContent }.

(** Calls into the OpenLayers objects, in the order they are made. *)
Inductive call : Type :=
| NewIcon (r : N)
| NewStyle (r : N)
| NewText (r : N)
| SetRotation (r : N) (rot : value)
| SetStyle (styles : list Style).

Record Feature : Type := {
  _selected : value;
  _color : value;
  _heading : value;
  uavId : value;
  _iconImage : option N;
  _selectionImage : option N;
  style : list Style;
  icons : gmap N Icon;
  allocated : N;
  calls : list call
}.

(** [this._heading = value] and its two siblings. *)
Definition with_heading (v : value) (f : Feature) : Feature :=
  {| _selected := _selected f; _color := _color f; _heading := v;
     uavId := uavId f; _iconImage := _iconImage f;
     _selectionImage := _selectionImage f; style := style f;
     icons := icons f; allocated := allocated f; calls := calls f |}.

Definition with_selected (v : value) (f : Feature) : Feature :=
  {| _selected := v; _color := _color f; _heading := _heading f;
     uavId := uavId f; _iconImage := _iconImage f;
     _selectionImage := _selectionImage f; style := style f;
     icons := icons f; allocated := allocated f; calls := calls f |}.

Definition with_color (v : value) (f : Feature) : Feature :=
  {| _selected := _selected f; _color := v; _heading := _heading f;
     uavId := uavId f; _iconImage := _iconImage f;
     _selectionImage := _selectionImage f; style := style f;
     icons := icons f; allocated := allocated f; calls := calls f |}.


Section Methods.
(** [((heading % 360) * Math.PI) / 180] on JavaScript numbers. *)
Variable degreesToRadians : value -> value.

(** [_headingToRotation(heading)] *)
Definition _headingToRotation (f : Feature) (heading : value) : value :=
  let heading := if strict_eq heading VUndefined then _heading f else heading in
  degreesToRadians heading.

Definition setRotation (r : N) (rot : value) (m : gmap N Icon) : gmap N Icon :=
  alter (fun i => {| rotateWithView := rotateWithView i; rotation := rot;
                     snapToPixel := snapToPixel i; src := src i |}) r m.

(** [_setupStyle()]: six objects are created, in this order: the main
    icon and its style, the selection icon and its style, the text and
    the label style. *)
Definition _setupStyle (f : Feature) : Feature :=
  let r := allocated f in
  let iconImage := {| rotateWithView := true;
                      rotation := _headingToRotation f VUndefined;
                      snapToPixel := false;
                      src := "assets/drone.x." +:+ to_string (_color f) +:+ ".32x32.png" |} in
  let iconStyle := {| style_ref := r + 1; content := Image r |} in
  let selectionImage := {| rotateWithView := true;
                           rotation := _headingToRotation f VUndefined;
                           snapToPixel := false;
                           src := "assets/selection_glow.png" |} in
  let selectionStyle := {| style_ref := r + 3; content := Image (r + 2) |} in
  let labelStyle :=
    {| style_ref := r + 5;
       content := Label {| font := "12px sans-serif"; offsetY := 24%Z;
                           text := or_else (uavId f) (VString "undefined");
                           textAlign := "center" |} |} in
  let styles :=
    (if truthy (_selected f) then [selectionStyle] else [])
    ++ [iconStyle; labelStyle] in
  {| _selected := _selected f; _color := _color f; _heading := _heading f;
     uavId := uavId f;
     _iconImage := Some r;
     _selectionImage := Some (r + 2);
     style := styles;
     icons := <[r + 2 := selectionImage]> (<[r := iconImage]> (icons f));
     allocated := r + 6;
     calls := calls f ++ [NewIcon r; NewStyle (r + 1); NewIcon (r + 2);
                          NewStyle (r + 3); NewText (r + 4); NewStyle (r + 5);
                          SetStyle styles] |}.

(** [constructor(uavId, geometryOrProperties)]; the geometry goes to the
    OpenLayers superclass and plays no part in what follows. *)
Definition new (id : value) : Feature :=
  _setupStyle
    {| _selected := VBool false; _color := VString ""; _heading := VNumber 0%Z;
       uavId := id; _iconImage := None; _selectionImage := None;
       style := []; icons := ∅; allocated := 0; calls := [] |}.

(** [set heading(value)].  Both icons are created together by
    [_setupStyle]; calling [setRotation] on a missing selection icon
    while the main icon exists would be a TypeError. *)
Definition set_heading (v : value) (f : Feature) : result Feature :=
  if strict_eq (_heading f) v then Ok f
  else
    let f1 := with_heading v f in
    match _iconImage f1 with
    | Some icon =>
        let rot := _headingToRotation f1 VUndefined in
        match _selectionImage f1 with
        | Some sel =>
            Ok {| _selected := _selected f1; _color := _color f1;
                  _heading := _heading f1;
                  uavId := uavId f1; _iconImage := _iconImage f1;
                  _selectionImage := _selectionImage f1; style := style f1;
                  icons := setRotation sel rot (setRotation icon rot (icons f1));
                  allocated := allocated f1;
                  calls := calls f1 ++ [SetRotation icon rot; SetRotation sel rot] |}
        | None => Throw "TypeError"
        end
    | None => Ok f1
    end.

(** [set selected(value)] *)
Definition set_selected (v : value) (f : Feature) : Feature :=
  if strict_eq (_selected f) v then f
  else _setupStyle (with_selected v f).

(** [set color(value)] *)
Definition set_color (v : value) (f : Feature) : Feature :=
  if strict_eq (_color f) v then f
  else _setupStyle (with_color v f).

(** Both icons exist, created by the same [_setupStyle]. *)
Definition hasIcons (f : Feature) : Prop :=
  exists r, _iconImage f = Some r /\ _selectionImage f = Some (r + 2).

(** The features a program can hold: built by the constructor and
    changed through the three setters. *)
Inductive reachable : Feature -> Prop :=
| reachable_new id : reachable (new id)
| reachable_heading v f f' :
    reachable f -> set_heading v f = Ok f' -> reachable f'
| reachable_selected v f : reachable f -> reachable (set_selected v f)
| reachable_color v f : reachable f -> reachable (set_color v f).

End Methods.

End UAVFeature.

(* ================================================================== *)
(** * Layer types *)
(* ================================================================== *)

Module Layers.
Import JS.

(** Plain data as found in layer parameters and produced by
    [JSON.parse]: numbers may be fractional here. *)
#[warnings="-register-all"] Inductive json : Type :=
| JUndefined
| JNull
| JBool (b : bool)
| JNumber (q : Q)
| JString (s : string)
| JArray (items : list json)
| JObject (fields : list (string * json)).

Definition json_truthy (j : json) : bool :=
  match j with
  | JUndefined | JNull => false
  | JBool b => b
  | JNumber q => negb (Qeq_bool q 0)
  | JString s => negb (String.eqb s "")
  | JArray _ | JObject _ => true
  end.

(** The [LayerType] enum object, property by property as written. *)
Definition LayerType : list (string * string) :=
  [ ("BASE", "base"); ("GEOJSON", "geojson"); ("HEATMAP", "heatmap");
    ("HEXGRID", "hexgrid"); ("OWN_LOCATION", "ownlocation"); ("UAVS", "uavs");
    ("UAVTrace", "uavtrace"); ("UNTYPED", "untyped") ].

(** [LayerType.NAME]: reading a property the object does not have gives
    [undefined]. *)
Definition LayerType_ (name : string) : value :=
  match List.find (fun kv => String.eqb (fst kv) name) LayerType with
  | Some kv => VString (snd kv)
  | None => VUndefined
  end.

Definition LayerTypes : list value :=
  [ LayerType_ "BASE"; LayerType_ "UAVS"; LayerType_ "UAVTRACE";
    LayerType_ "OWN_LOCATION"; LayerType_ "GEOJSON"; LayerType_ "HEXGRID";
    LayerType_ "HEATMAP" ].

Record LayerProperties : Type := {
  label : string;
  icon : string;
  parameters : option json
}.

Definition rgba (r g b : Z) (a : Q) : json :=
  JObject [ ("r", JNumber (inject_Z r)); ("g", JNumber (inject_Z g));
            ("b", JNumber (inject_Z b)); ("a", JNumber a) ].

Definition num (z : Z) : json := JNumber (inject_Z z).

(** An object literal with computed keys: a later entry replaces an
    earlier one with the same key. *)
Definition objectOf {A} (entries : list (value * A)) : gmap string A :=
  fold_left (fun m kv => <[to_string (fst kv) := snd kv]> m) entries ∅.

Definition propertiesForLayerTypes_ : gmap string LayerProperties :=
  objectOf
    [ (LayerType_ "BASE",
       {| label := "Base layer"; icon := "Map";
          parameters := Some (JObject [("source", JString "osm")]) |});
      (LayerType_ "GEOJSON",
       {| label := "GeoJSON layer"; icon := "FileAttachment";
          parameters := Some (JObject
            [ ("data", JObject []);
              ("strokeColor", rgba 85 85 225 1);
              ("strokeWidth", num 2);
              ("fillColor", rgba 170 170 225 (1 # 2)) ]) |});
      (LayerType_ "HEXGRID",
       {| label := "HEX Grid layer"; icon := "ImageGridOn";
          parameters := Some (JObject
            [ ("center", JArray [JNumber (19061951 # 1000000);
                                 JNumber (47473340 # 1000000)]);
              ("size", num 8);
              ("radius", JNumber (5 # 10000)) ]) |});
      (LayerType_ "HEATMAP",
       {| label := "Heatmap"; icon := "ActionTrackChanges";
          parameters := Some (JObject
            [ ("subscriptions", JArray []);
              ("minHue", num 100); ("maxHue", num 0);
              ("minValue", num 0); ("maxValue", num 0);
              ("autoScale", JBool true);
              ("maxPoints", num 1000);
              ("unit", JString "") ]) |});
      (LayerType_ "OWN_LOCATION",
       {| label := "Own location"; icon := "MyLocation"; parameters := None |});
      (LayerType_ "UAVS",
       {| label := "UAVs"; icon := "Flight";
          parameters := Some (JObject [("colorPredicates", JObject [])]) |});
      (LayerType_ "UAVTRACE",
       {| label := "UAV Trace"; icon := "ActionTimeline";
          parameters := Some (JObject
            [ ("trailLength", num 10); ("trailWidth", num 2);
              ("trailColor", rgba 0 0 0 1) ]) |});
      (LayerType_ "UNTYPED",
       {| label := "Untyped layer"; icon := "ActionHelpOutline";
          parameters := None |}) ].

(** The properties every object inherits from [Object.prototype]; none
    of them has an own property called [parameters]. *)
Definition objectPrototypeKeys : list string :=
  [ "constructor"; "hasOwnProperty"; "isPrototypeOf"; "propertyIsEnumerable";
    "toLocaleString"; "toString"; "valueOf"; "__proto__";
    "__defineGetter__"; "__defineSetter__"; "__lookupGetter__";
    "__lookupSetter__" ].

Inductive lookup : Type :=
| Own (props : LayerProperties)
| Inherited
| Missing.

(** [propertiesForLayerTypes_[layerType]] *)
Definition propertiesOf (layerType : value) : lookup :=
  match propertiesForLayerTypes_ !! to_string layerType with
  | Some props => Own props
  | None =>
      if bool_decide (to_string layerType ∈ objectPrototypeKeys)
      then Inherited else Missing
  end.

(** [_.cloneDeep] of plain data is a structurally equal copy. *)
Definition cloneDeep (j : json) : json := j.

(** [defaultParametersForLayerType]: [props.hasOwnProperty(...)] on
    [undefined] is a TypeError. *)
Definition defaultParametersForLayerType (layerType : value) : result json :=
  match propertiesOf layerType with
  | Own props =>
      Ok (cloneDeep (match parameters props with
                     | Some template => template
                     | None => JObject []
                     end))
  | Inherited => Ok (cloneDeep (JObject []))
  | Missing => Throw "TypeError"
  end.

Record Layer : Type := {
  layer_type : value;
  layer_label : value;
  layer_visible : bool;
  layer_parameters : json
}.

(** [createNewLayer(layerType, name, parameters)] *)
Definition createNewLayer (layerType name : value) (params : json) : result Layer :=
  let effectiveLayerType := or_else layerType (LayerType_ "UNTYPED") in
  let visible := negb (strict_eq effectiveLayerType (LayerType_ "UNTYPED")) in
  if json_truthy params
  then Ok {| layer_type := effectiveLayerType; layer_label := name;
             layer_visible := visible; layer_parameters := params |}
  else match defaultParametersForLayerType effectiveLayerType with
       | Ok defaults =>
           Ok {| layer_type := effectiveLayerType; layer_label := name;
                 layer_visible := visible; layer_parameters := defaults |}
       | Throw e => Throw e
       end.

(** [iconForLayerType] and [labelForLayerType]: a property read on
    [undefined] is a TypeError; an inherited member has neither. *)
Definition iconForLayerType (layerType : value) : result (option string) :=
  match propertiesOf layerType with
  | Own props => Ok (Some (icon props))
  | Inherited => Ok None
  | Missing => Throw "TypeError"
  end.

Definition labelForLayerType (layerType : value) : result (option string) :=
  match propertiesOf layerType with
  | Own props => Ok (Some (label props))
  | Inherited => Ok None
  | Missing => Throw "TypeError"
  end.

End Layers.

(* ================================================================== *)
(** * Settings panel of the GeoJSON layer *)
(* ================================================================== *)

Module GeoJSON.
Import JS Layers.

(** The local state of [GeoJSONLayerSettingsPresentation]: the contents
    of the two text fields. *)
Record ComponentState : Type := {
  strokeWidth : json;
  data : string
}.

Inductive action : Type :=
| setLayerParameterById (layerId : value) (parameter : string) (v : json)
| showNotification (message semantics : string).

Section Settings.
(** [JSON.parse] ([None]: a SyntaxError is thrown) and lodash
    [toNumber]. *)
Variable JSON_parse : string -> option json.
Variable toNumber : json -> json.

(** [_handleClick], with the two props bound as in
    [mapDispatchToProps]; the result lists the dispatched actions. *)
Definition _handleClick (layerId : value) (st : ComponentState) : list action :=
  setLayerParameterById layerId "strokeWidth" (toNumber (strokeWidth st)) ::
  match JSON_parse (data st) with
  | Some parsedData =>
      [ setLayerParameterById layerId "data" parsedData;
        showNotification "GeoJSON imported successfully." "success" ]
  | None =>
      [ showNotification "Invalid GeoJSON data." "error" ]
  end.
End Settings.

(** The layers of the store, by id, each with its parameters. *)
Record StoredLayer : Type := {
  stored_type : value;
  stored_parameters : gmap string json
}.

(** Modelled from the spec: the reducer behind [setLayerParameterById]
    (actions/layers) is missing from the sources.  In line with "the data
    parameter is set to the parsed value", the action sets the named
    parameter of the layer with the given id; notifications do not touch
    the layers. *)
Definition reduce (layers : gmap string StoredLayer) (a : action) : gmap string StoredLayer :=
  match a with
  | setLayerParameterById layerId parameter v =>
      alter (fun l => {| stored_type := stored_type l;
                         stored_parameters := <[parameter := v]> (stored_parameters l) |})
            (to_string layerId) layers
  | showNotification _ _ => layers
  end.

Definition dispatchAll (layers : gmap string StoredLayer) (actions : list action) :=
  fold_left reduce actions layers.

Definition notifications (actions : list action) : list (string * string) :=
  omap (fun a => match a with
                 | showNotification m s => Some (m, s)
                 | _ => None
                 end) actions.

End GeoJSON.

(* ================================================================== *)
(** * Reference definitions and sample data used in the statements *)
(* ================================================================== *)

Module Reference.
Import JS UAVList.

(** The label rule in the words of section 4.3: an explicit proposed
    label wins; otherwise, with mission ids displayed, the formatted
    mission id is shown exactly when the item has a slot index and
    (edit mode is off or the item's UAV id is empty), else the UAV id;
    with mission ids not displayed, the UAV id. *)
Definition hasSlotIndex (it : item) : bool :=
  negb (bool_decide (item_missionIndex it = VUndefined)).

Definition uavIdIsEmpty (it : item) : bool :=
  bool_decide (item_uavId it = VUndefined).

Definition specLabel (formatMissionId : value -> value)
    (showMissionIds editMode : bool) (it : item) : value :=
  if truthy (item_proposedLabel it) then item_proposedLabel it
  else if showMissionIds
       then if hasSlotIndex it && (negb editMode || uavIdIsEmpty it)
            then formatMissionId (item_missionIndex it)
            else item_uavId it
       else item_uavId it.

(** A stand-in for [formatMissionId] in concrete evaluations. *)
Definition sampleFormatMissionId (missionIndex : value) : value :=
  VString ("s" +:+ to_string missionIndex).

(** The sentinel entry of the extra drop target in concrete
    evaluations: an array with neither UAV id nor slot index. *)
Definition sampleDeletionMarker : item :=
  Item 1 [VUndefined; VUndefined; VObject 1].

Definition sampleOptions (editMode : bool) (cursor : value) : options unit :=
  {| draggable := editMode; isInEditMode := editMode;
     mappingSlotBeingEdited := cursor;
     onDropped := None; onSelected := None;
     selectedUAVIds := []; showMissionIds := true |}.

(** A slot holding UAV "A", an empty slot, and a spare UAV. *)
Definition slotWithUAV : item := Item 2 [VString "A"; VNumber 0; VUndefined].
Definition emptySlot : item := Item 3 [VUndefined; VNumber 1; VUndefined].
Definition spareUAV : item := Item 4 [VString "B"; VUndefined; VUndefined].

(** What a rendered list item shows. *)
Definition isPlaceholder {Event} (el : DroneListItem Event) : bool :=
  existsb (fun n => match n with DronePlaceholder _ _ _ => true | _ => false end)
          (p_children Event el).

Definition isAvatar {Event} (el : DroneListItem Event) : bool :=
  existsb (fun n => match n with DroneAvatar _ _ _ _ => true | _ => false end)
          (p_children Event el).

Definition placeholderStatus {Event} (el : DroneListItem Event) : list string :=
  omap (fun n => match n with DronePlaceholder _ _ s => Some s | _ => None end)
       (p_children Event el).

(** The labels passed to the avatar, placeholder or status line of a list
    item. *)
Definition shownLabels {Event} (el : DroneListItem Event) : list value :=
  omap (fun n => match n with
                 | MappingSlotEditor => None
                 | DronePlaceholder _ label _ => Some label
                 | DroneAvatar _ _ label _ => Some label
                 | DroneStatusLine _ label _ => Some label
                 end)
       (p_children Event el).

Definition avatarIds {Event} (el : DroneListItem Event) : list value :=
  omap (fun n => match n with DroneAvatar id _ _ _ => Some id | _ => None end)
       (p_children Event el).

(** What the grid builder is expected to render for an item: a
    placeholder exactly when the UAV id is undefined, with status
    'error' without and 'off' with a mission index; otherwise an avatar
    of that UAV; the fill flag for the deletion marker only. *)
Definition describesGridItem {Event} (deletionMarker it : item)
    (el : DroneListItem Event) : Prop :=
  isPlaceholder el = bool_decide (item_uavId it = VUndefined)
  /\ isAvatar el = negb (bool_decide (item_uavId it = VUndefined))
  /\ placeholderStatus el =
       (if bool_decide (item_uavId it = VUndefined)
        then [if bool_decide (item_missionIndex it = VUndefined)
              then "error" else "off"]
        else [])
  /\ avatarIds el =
       (if bool_decide (item_uavId it = VUndefined) then [] else [item_uavId it])
  /\ (p_fill Event el = true <-> item_ref it = item_ref deletionMarker).

Definition sampleInfo : CheckboxInfo :=
  {| checked := false; disabled := false; indeterminate := false |}.

Definition sampleProps (editing : bool) (cursor : value) : props :=
  {| editingMapping := editing; layout := "grid";
     prop_mappingSlotBeingEdited := cursor;
     prop_selectedUAVIds := [];
     selectionInfo := {| info_mainUAVIds := sampleInfo;
                         info_spareUAVIds := sampleInfo;
                         info_extraSlots := sampleInfo |};
     prop_showMissionIds := true;
     uavIds := {| mainUAVIds := [slotWithUAV; emptySlot];
                  spareUAVIds := [spareUAV];
                  extraSlots := [sampleDeletionMarker] |} |}.

(** The buckets of the scenario of section 8: A in slot 0, slot 1 empty,
    B and C spare.  A store state is the selection and the checked flag
    of the spare section. *)
Definition scenarioBuckets : DisplayedIdList :=
  {| mainUAVIds := [slotWithUAV; emptySlot];
     spareUAVIds := [spareUAV; Item 5 [VString "C"; VUndefined; VUndefined]];
     extraSlots := [] |}.

Definition scenarioInfo (st : list value * bool) : SelectionInfo :=
  {| info_mainUAVIds := sampleInfo;
     info_spareUAVIds := {| checked := snd st; disabled := false;
                            indeterminate := negb (snd st) |};
     info_extraSlots := sampleInfo |}.

(** The three buckets by name. *)
Inductive BucketName : Type := MainUAVIds | SpareUAVIds | ExtraSlots.

Definition bucketKey (b : BucketName) : string :=
  match b with
  | MainUAVIds => "mainUAVIds"
  | SpareUAVIds => "spareUAVIds"
  | ExtraSlots => "extraSlots"
  end.

Definition entriesOf (d : DisplayedIdList) (b : BucketName) : list item :=
  match b with
  | MainUAVIds => mainUAVIds d
  | SpareUAVIds => spareUAVIds d
  | ExtraSlots => extraSlots d
  end.

Definition infoOf (i : SelectionInfo) (b : BucketName) : CheckboxInfo :=
  match b with
  | MainUAVIds => info_mainUAVIds i
  | SpareUAVIds => info_spareUAVIds i
  | ExtraSlots => info_extraSlots i
  end.

(** The real (non-nil) ids of a bucket. *)
Definition realIds (entries : list item) : list value :=
  List.filter (fun v => negb (isNil v)) (map item_uavId entries).

End Reference.

Module MissionReference.
Import Mission.

(** "The spare ids together with the mapped ids exactly partition the
    known fleet": the two are disjoint and their union is the fleet. *)
Definition partitionsFleet (st : State) (d : DisplayedIdList) : Prop :=
  (forall u, u ∈ idsOf (spareUAVIds d) -> u ∉ mappedIds (mapping st))
  /\ (forall u, u ∈ fleet st <->
                u ∈ idsOf (spareUAVIds d) \/ u ∈ mappedIds (mapping st)).

(** No extra drop target. *)
Definition noExtraSlots (st : State) : list Entry := [].

(** Fleet A, B, C with A in slot 0 and B in slot 1. *)
Definition sampleState : State :=
  {| fleet := ["A"; "B"; "C"]; mapping := [Some "A"; Some "B"];
     editCursor := CursorAt (Some 1%Z); selection := [] |}.

(** A mapping that still names a UAV ("A") that has left the fleet. *)
Definition staleState : State :=
  {| fleet := ["B"]; mapping := [Some "A"; None];
     editCursor := CursorNull; selection := [] |}.

End MissionReference.

Module Samples.
Import JS Layers GeoJSON.

(** A stand-in for the conversion of a heading to radians. *)
Definition sampleRotation (heading : value) : value := heading.

Definition sampleFeature : UAVFeature.Feature :=
  UAVFeature.new sampleRotation (VString "07").

(** Stand-ins for [JSON.parse] and lodash [toNumber] that agree with
    them on the texts used below: "{}" parses to the empty object, "{"
    is not valid JSON, and the string "5" converts to the number 5. *)
Definition sampleParse (text : string) : option json :=
  if String.eqb text "{}" then Some (JObject []) else None.

Definition sampleToNumber (j : json) : json :=
  match j with
  | JString "5" => num 5
  | _ => j
  end.

(** A store with one GeoJSON layer, stroke width 2 and empty data. *)
Definition sampleLayers : gmap string StoredLayer :=
  {[ "layer1" := {| stored_type := VString "geojson";
                    stored_parameters :=
                      {[ "strokeWidth" := num 2; "data" := JObject [] ]} |} ]}.

(** The settings panel with "5" typed as stroke width and a text that
    is not JSON typed as data. *)
Definition invalidInput : ComponentState :=
  {| strokeWidth := JString "5"; data := "{" |}.

Definition validInput : ComponentState :=
  {| strokeWidth := JString "5"; data := "{}" |}.

End Samples.

(* ================================================================== *)
(** * Hotkey bindings *)
(* ================================================================== *)

Module Hotkeys.

Section Binding.
Variable Event : Type.
Variable Action : Type.

(** What a hotkey handler does when its key is pressed, in order:
    [event.preventDefault()], [dispatch(action)] and
    [keyboardNavigationSignal.dispatch(action, event)]. *)
Inductive effect : Type :=
| preventDefault
| dispatch (a : Action)
| keyboardNavigationSignal (action : string) (event : Event).

Definition handler : Type := Event -> list effect.

(** An object literal: a later entry replaces an earlier one with the
    same name. *)
Definition objectLiteral {A} (entries : list (string * A)) : gmap string A :=
  fold_left (fun m kv => <[fst kv := snd kv]> m) entries ∅.

(** [(handler) => (event) => { event.preventDefault(); dispatch(handler()); }] *)
Definition bound (actionCreator : unit -> Action) : handler :=
  fun _ => [preventDefault; dispatch (actionCreator tt)].

(** [bindHotkeyHandlers]: [{ ...nonReduxHandlers, ...mapValues(reduxHandlers, ...) }];
    the entries spread last replace those spread first. *)
Definition bindHotkeyHandlers (reduxHandlers : gmap string (unit -> Action))
    (nonReduxHandlers : gmap string handler) : gmap string handler :=
  (bound <$> reduxHandlers) ∪ nonReduxHandlers.

(** [sendKeyboardNavigationSignal] *)
Definition sendKeyboardNavigationSignal (action : string) : handler :=
  fun event => [keyboardNavigationSignal action event].

(** The action creators and helpers imported by the file. *)
Variable Command : Type.
Variables clearSelection copyCoordinates selectAllUAVFeatures showHotkeyDialog :
  unit -> Action.
Variable callOnSelection : Command -> unit -> Action.
Variables takeoffUAVs landUAVs returnToHomeUAVs : Command.
Variable clearStoreAfterConfirmation : handler.

(** The [handlers] prop built in [mapDispatchToProps]. *)
Definition handlers : gmap string handler :=
  bindHotkeyHandlers
    (objectLiteral
       [ ("CLEAR_SELECTION", clearSelection);
         ("COPY_COORDINATES", copyCoordinates);
         ("SELECT_ALL_DRONES", selectAllUAVFeatures);
         ("SEND_TAKEOFF_COMMAND", callOnSelection takeoffUAVs);
         ("SEND_LANDING_COMMAND", callOnSelection landUAVs);
         ("SEND_RTH_COMMAND", callOnSelection returnToHomeUAVs);
         ("SHOW_HOTKEY_DIALOG", showHotkeyDialog) ])
    (objectLiteral
       [ ("CLEAR_STORED_SETTINGS", clearStoreAfterConfirmation);
         ("SELECT_FIRST", sendKeyboardNavigationSignal "SELECT_FIRST");
         ("SELECT_LAST", sendKeyboardNavigationSignal "SELECT_LAST");
         ("SELECT_NEXT", sendKeyboardNavigationSignal "SELECT_NEXT");
         ("SELECT_PREVIOUS", sendKeyboardNavigationSignal "SELECT_PREVIOUS") ]).

End Binding.

Arguments preventDefault {Event Action}.
Arguments dispatch {Event Action} a.
Arguments keyboardNavigationSignal {Event Action} action event.

End Hotkeys.

(* ================================================================== *)
(** * src/features/session/NearestItemTooltip.jsx *)
(* ================================================================== *)

Module NearestItemTooltip.
Import JS.

Section Tooltip.
(** [isUavId] and [globalIdToUavId] of model/identifiers. *)
Variable isUavId : value -> value.
Variable globalIdToUavId : value -> value.


Inductive rendered : Type :=
| DroneInfoTooltipContent (id : value).

(** [NearestItemTooltipContent]: [None] is [null]. *)
Definition NearestItemTooltipContent (featureId : value) : option rendered :=
  if truthy (isUavId featureId)
  then Some (DroneInfoTooltipContent (globalIdToUavId featureId))
  else None.

(** The props [NearestItemTooltip] passes to [<Tooltip>]: [content] is
    either [null] or a [<NearestItemTooltipContent>] element, given here
    by its [featureId] prop. *)
Record TooltipProps : Type := {
  visible : value;
  content : option value
}.


(** What ends up inside the tooltip once the content element is
    rendered. *)
Definition shown (p : TooltipProps) : option rendered :=
  content p ≫= NearestItemTooltipContent.

End Tooltip.

End NearestItemTooltip.

(* ================================================================== *)
(** * The GeoJSON layer: settings panel events, vector source, styles *)
(* ================================================================== *)

Module GeoJSONPanel.
Import JS Layers GeoJSON.

(** What the user can do in the settings panel. *)
Inductive userEvent : Type :=
| StrokeColorChange (v : json)
| FillColorChange (v : json)
| StrokeWidthChange (text : string)
| DataChange (text : string)
| Click.

Section Panel.
Variable JSON_parse : string -> option json.
Variable JSON_stringify : json -> string.
Variable toNumber : json -> json.

(** [state = { strokeWidth: ..., data: JSON.stringify(..., null, 2) }];
    a parameter the layer does not have reads as [undefined]. *)
Definition initialState (parameters : gmap string json) : ComponentState :=
  {| strokeWidth := default JUndefined (parameters !! "strokeWidth");
     data := JSON_stringify (default JUndefined (parameters !! "data")) |}.

(** The five event handlers of the panel: the new local state and the
    actions dispatched. *)
Definition handle (layerId : value) (st : ComponentState) (e : userEvent)
    : ComponentState * list action :=
  match e with
  | StrokeColorChange v => (st, [setLayerParameterById layerId "strokeColor" v])
  | FillColorChange v => (st, [setLayerParameterById layerId "fillColor" v])
  | StrokeWidthChange text =>
      ({| strokeWidth := JString text; data := data st |}, [])
  | DataChange text =>
      ({| strokeWidth := strokeWidth st; data := text |}, [])
  | Click => (st, _handleClick JSON_parse toNumber layerId st)
  end.

(** A session: the events handled one after the other. *)
Fixpoint session (layerId : value) (st : ComponentState) (events : list userEvent)
    : ComponentState * list action :=
  match events with
  | [] => (st, [])
  | e :: rest =>
      let (st1, dispatched) := handle layerId st e in
      let (st2, later) := session layerId st1 rest in
      (st2, dispatched ++ later)
  end.

End Panel.

Definition isFieldEdit (e : userEvent) : bool :=
  match e with
  | StrokeWidthChange _ | DataChange _ => true
  | _ => false
  end.

End GeoJSONPanel.

Module GeoJSONVectorSource.
Import JS Layers.

Section Source.
(** OpenLayers features are opaque; [readFeatures] is
    [GeoJSON.readFeatures] ([None]: it throws). *)
Variable Feature : Type.
Variable readFeatures : json -> option (list Feature).

(** The component: the ref it currently holds ([None] for undefined or
    null) and its [data] prop.  A ref is the mounted [<source.Vector>];
    each one wraps one OpenLayers source, whose features are kept per
    ref. *)
Record Component : Type := {
  _sourceRef : option positive;
  data : json
}.

Record World : Type := {
  component : Component;
  sources : gmap positive (list Feature);
  errors : nat
}.

Definition featuresOf (w : World) (r : positive) : list Feature :=
  default [] (sources w !! r).

(** [source.clear()] and [source.addFeatures(features)] *)
Definition clear (r : positive) (m : gmap positive (list Feature)) :=
  <[r := []]> m.

Definition addFeatures (r : positive) (features : list Feature)
    (m : gmap positive (list Feature)) :=
  <[r := default [] (m !! r) ++ features]> m.

(** [_parseFeatures]: a failure is logged and gives no features. *)
Definition _parseFeatures (d : json) : list Feature * nat :=
  match readFeatures d with
  | Some features => (features, 0%nat)
  | None => ([], 1%nat)
  end.

(** [_updateFeaturesFromProps(props)] *)
Definition _updateFeaturesFromProps (d : json) (w : World) : World :=
  let (features, logged) := _parseFeatures d in
  {| component := component w;
     sources := match _sourceRef (component w) with
                | Some r => addFeatures r features (clear r (sources w))
                | None => sources w
                end;
     errors := (errors w + logged)%nat |}.

(** [constructor(props)] *)
Definition new (d : json) (m : gmap positive (list Feature)) : World :=
  _updateFeaturesFromProps d
    {| component := {| _sourceRef := None; data := d |};
       sources := m; errors := 0%nat |}.

(** [componentDidUpdate()], after React has replaced the props. *)
Definition componentDidUpdate (d : json) (w : World) : World :=
  _updateFeaturesFromProps d
    {| component := {| _sourceRef := _sourceRef (component w); data := d |};
       sources := sources w; errors := errors w |}.

(** [_assignSourceRef(value)] *)
Definition _assignSourceRef (v : option positive) (w : World) : World :=
  if decide (_sourceRef (component w) = v) then w
  else
    let cleared := match _sourceRef (component w) with
                   | Some old => clear old (sources w)
                   | None => sources w
                   end in
    let w1 := {| component := {| _sourceRef := v; data := data (component w) |};
                 sources := cleared; errors := errors w |} in
    match v with
    | Some _ => _updateFeaturesFromProps (data (component w1)) w1
    | None => w1
    end.

(** What React does to a mounted component. *)
Inductive lifecycle : Type :=
| AssignRef (v : option positive)
| NewData (d : json).

Definition step (w : World) (e : lifecycle) : World :=
  match e with
  | AssignRef v => _assignSourceRef v w
  | NewData d => componentDidUpdate d w
  end.

Definition run (w : World) (events : list lifecycle) : World :=
  fold_left step events w.

(** The features the current data stands for. *)
Definition parsed (w : World) : list Feature :=
  fst (_parseFeatures (data (component w))).

(** The attached source shows the current data, every other source is
    empty. *)
Definition inSync (w : World) : Prop :=
  forall r, featuresOf w r
            = if decide (_sourceRef (component w) = Some r) then parsed w else [].

End Source.

End GeoJSONVectorSource.

Module GeoJSONLayer.
Import JS Layers.

Section Style.
(** A feature as the style function sees it: its properties and whether
    its geometry is a [Point]. *)
Record Feature : Type := {
  properties : gmap string json;
  isPoint : bool
}.

(** The OpenLayers style type and [convertSimpleStyleToOLStyle] of
    utils/simplestyle; [defaults] is the object built from the layer
    parameters. *)
Variable OLStyle : Type.
Variable Defaults : Type.
Variable convertSimpleStyleToOLStyle : gmap string json -> Defaults -> OLStyle.

(** The properties handed to the converter: a point without (truthy)
    [marker-symbol] gets the symbol 'marker'. *)
Definition styledProperties (feature : Feature) : gmap string json :=
  let props := properties feature in
  if negb (json_truthy (default JUndefined (props !! "marker-symbol")))
     && isPoint feature
  then <["marker-symbol" := JString "marker"]> props
  else props.

(** The function returned by the [useMemo] callback. *)
Definition styleFunction (defaults : Defaults) (feature : Feature) : OLStyle :=
  convertSimpleStyleToOLStyle (styledProperties feature) defaults.

End Style.

End GeoJSONLayer.

Module ExtraReference.
Import JS UAVList Layers GeoJSON GeoJSONPanel.

(** The same props with another layout. *)
Definition withLayout (l : string) (p : props) : props :=
  {| editingMapping := editingMapping p; layout := l;
     prop_mappingSlotBeingEdited := prop_mappingSlotBeingEdited p;
     prop_selectedUAVIds := prop_selectedUAVIds p;
     selectionInfo := selectionInfo p;
     prop_showMissionIds := prop_showMissionIds p;
     uavIds := uavIds p |}.

(** How many of the three toolbars are shown. *)
Definition toolbarsShown {Event} (v : view Event) : nat :=
  (if uavToolbar_in Event v then 1 else 0)
  + (if mappingEditorToolbar_in Event v then 1 else 0)
  + (if mappingSlotEditorToolbar_in Event v then 1 else 0).

(** Entries that have a mission index have pairwise different ones. *)
Definition distinctMissionIndices (items : list item) : Prop :=
  forall (i j : nat) (a b : item),
    items !! i = Some a -> items !! j = Some b ->
    item_missionIndex a = item_missionIndex b ->
    item_missionIndex a <> VUndefined -> i = j.

Definition bucketNames : list string := ["mainUAVIds"; "spareUAVIds"; "extraSlots"].

(** Four entries: A in slot 0, slot 1 empty, B and C spare. *)
Definition scenarioItems : list item :=
  [ Reference.slotWithUAV; Reference.emptySlot; Reference.spareUAV;
    Item 5 [VString "C"; VUndefined; VUndefined] ].

(** Options with mission ids not displayed, and a second empty slot. *)
Definition plainOptions : options unit :=
  {| draggable := false; isInEditMode := false;
     mappingSlotBeingEdited := VNumber (-1);
     onDropped := None; onSelected := None;
     selectedUAVIds := []; showMissionIds := false |}.

Definition otherEmptySlot : item := Item 6 [VUndefined; VNumber 2; VUndefined].

(** The layer of the sample store. *)
Definition sampleLayer : StoredLayer :=
  {| stored_type := VString "geojson";
     stored_parameters :=
       {[ "strokeWidth" := num 2; "data" := JObject [] ]} |}.

(** Whether a call threw. *)
Definition threw {A} (r : result A) : bool :=
  match r with Throw _ => true | Ok _ => false end.

(** The icons and the style array of a feature are those that
    [_setupStyle] derives from its current fields: both icons exist and
    are turned by the current heading, the main icon shows the current
    colour, and the style array is the selection glow (only when
    selected), the main icon and the label with the UAV id. *)
Definition reflectsFields (degreesToRadians : value -> value)
    (f : UAVFeature.Feature) : Prop :=
  exists r : N,
    UAVFeature._iconImage f = Some r
    /\ UAVFeature._selectionImage f = Some (r + 2)%N
    /\ UAVFeature.icons f !! r
       = Some {| UAVFeature.rotateWithView := true;
                 UAVFeature.rotation := degreesToRadians (UAVFeature._heading f);
                 UAVFeature.snapToPixel := false;
                 UAVFeature.src :=
                   "assets/drone.x." +:+ to_string (UAVFeature._color f)
                   +:+ ".32x32.png" |}
    /\ UAVFeature.icons f !! (r + 2)%N
       = Some {| UAVFeature.rotateWithView := true;
                 UAVFeature.rotation := degreesToRadians (UAVFeature._heading f);
                 UAVFeature.snapToPixel := false;
                 UAVFeature.src := "assets/selection_glow.png" |}
    /\ map UAVFeature.content (UAVFeature.style f)
       = (if truthy (UAVFeature._selected f)
          then [UAVFeature.Image (r + 2)%N] else [])
         ++ [ UAVFeature.Image r;
              UAVFeature.Label
                {| UAVFeature.font := "12px sans-serif";
                   UAVFeature.offsetY := 24%Z;
                   UAVFeature.text :=
                     or_else (UAVFeature.uavId f) (VString "undefined");
                   UAVFeature.textAlign := "center" |} ].

(** The last text typed into the data field and into the stroke width
    field, if any. *)
Definition lastData (events : list userEvent) : option string :=
  last (omap (fun e => match e with DataChange t => Some t | _ => None end) events).

Definition lastStrokeWidth (events : list userEvent) : option string :=
  last (omap (fun e => match e with StrokeWidthChange t => Some t | _ => None end)
             events).

(** Stand-ins for [JSON.stringify] and for the absent identifier helpers
    in concrete evaluations. *)
Definition sampleStringify (j : json) : string :=
  match j with
  | JObject [] => "{}"
  | _ => "null"
  end.



End ExtraReference.

(* ================================================================== *)
(** * Properties of the JavaScript operators *)
(* ================================================================== *)

Module JSFacts.
Import JS.

Lemma strict_eq_undefined (v : value) :
  strict_eq v VUndefined = bool_decide (v = VUndefined).
Proof. destruct v; reflexivity. Qed.

Lemma strict_eq_true (a b : value) :
  strict_eq a b = true <-> a = b /\ a <> VNaN.
Proof.
  unfold strict_eq; split.
  - destruct a, b; try discriminate; intros H;
      apply bool_decide_eq_true in H; split; congruence.
  - intros [-> Hn]. destruct b; try (apply bool_decide_eq_true; reflexivity).
    congruence.
Qed.

Lemma strict_eq_false_ne (a b : value) : a <> b -> strict_eq a b = false.
Proof.
  intros Hne. destruct (strict_eq a b) eqn:E; [|reflexivity].
  apply strict_eq_true in E. tauto.
Qed.

Lemma includes_elem_of (l : list value) (v : value) :
  includes l v = true <-> v ∈ l.
Proof.
  unfold includes, same_value_zero. rewrite existsb_exists. split.
  - intros (x & Hin & Heq). apply bool_decide_eq_true in Heq. subst.
    by apply list_elem_of_In.
  - intros Hin. exists v. split; [by apply list_elem_of_In|].
    by apply bool_decide_eq_true.
Qed.

Lemma includes_false (l : list value) (v : value) :
  includes l v = false <-> v ∉ l.
Proof.
  rewrite <- includes_elem_of. destruct (includes l v); split; congruence.
Qed.

Lemma elem_of_difference (sel ids : list value) (x : value) :
  x ∈ difference sel ids <-> x ∈ sel /\ x ∉ ids.
Proof.
  unfold difference.
  rewrite list_elem_of_In, filter_In, negb_true_iff, includes_false.
  by rewrite <- list_elem_of_In.
Qed.

Lemma elem_of_uniq_from (l acc : list value) (x : value) :
  x ∈ fold_left push_unique l acc <-> x ∈ acc \/ x ∈ l.
Proof.
  revert acc. induction l as [|y l IH]; intros acc; simpl.
  - rewrite elem_of_nil. tauto.
  - rewrite IH, elem_of_cons. unfold push_unique.
    destruct (includes acc y) eqn:E.
    + apply includes_elem_of in E. split; [tauto|].
      intros [H|[->|H]]; tauto.
    + rewrite elem_of_app, list_elem_of_singleton. tauto.
Qed.

Lemma elem_of_union (sel ids : list value) (x : value) :
  x ∈ union sel ids <-> x ∈ sel \/ x ∈ ids.
Proof.
  unfold union, uniq. rewrite elem_of_uniq_from, elem_of_nil, elem_of_app. tauto.
Qed.

Lemma NoDup_uniq_from (l acc : list value) :
  NoDup acc -> NoDup (fold_left push_unique l acc).
Proof.
  revert acc. induction l as [|y l IH]; intros acc Hacc; simpl; [done|].
  apply IH. unfold push_unique. destruct (includes acc y) eqn:E; [done|].
  apply includes_false in E. apply NoDup_app. split; [done|].
  split; [|apply NoDup_singleton].
  intros z Hz Hz'. apply list_elem_of_singleton in Hz'. by subst.
Qed.

Lemma NoDup_union (sel ids : list value) : NoDup (union sel ids).
Proof. apply NoDup_uniq_from, NoDup_nil_2. Qed.

End JSFacts.

(* ================================================================== *)
(** * The item builders of the UAV list *)
(* ================================================================== *)

Module UAVListFacts.
Import JS JSFacts UAVList Reference.

Section Labels.
Context {Event : Type} (formatMissionId : value -> value) (deletionMarker : item).
Implicit Types (o : options Event) (it : item).

Lemma gridLabel_spec o it :
  gridLabel Event formatMissionId o it
  = specLabel formatMissionId (showMissionIds Event o) (isInEditMode Event o) it.
Proof.
  unfold gridLabel, specLabel, or_else, hasSlotIndex, uavIdIsEmpty.
  by rewrite !strict_eq_undefined.
Qed.

Lemma listLabel_spec o it :
  listLabel Event formatMissionId o it
  = specLabel formatMissionId (showMissionIds Event o) false it.
Proof.
  unfold listLabel, specLabel, or_else, hasSlotIndex, uavIdIsEmpty.
  rewrite !strict_eq_undefined. simpl. by rewrite andb_true_r.
Qed.

Lemma createGridItem_shows o it :
  shownLabels (createGridItem Event formatMissionId deletionMarker o it)
  = [if editingItem Event o it then VString ""
     else gridLabel Event formatMissionId o it].
Proof.
  unfold createGridItem, shownLabels.
  by destruct (strict_eq (item_uavId it) VUndefined), (editingItem Event o it).
Qed.

Lemma createListItem_shows o it :
  shownLabels (createListItem Event formatMissionId deletionMarker o it)
  = [listLabel Event formatMissionId o it].
Proof. reflexivity. Qed.

(** C1 (as amended).  The grid builder derives the label by the rule of
    section 4.3 (and shows it, except on the one item whose slot is being
    edited, which is shown with an empty label).  The list builder derives
    and shows the label by the same rule with edit mode never taken into
    account: with mission ids displayed it shows the formatted mission id
    whenever the item has a slot index.  So for an item with a real UAV id
    and a slot index, edit mode makes the grid label the raw UAV id, and
    an empty slot keeps its mission-id label in both builders. *)
Theorem label_rule_of_both_builders o it :
  let rule := specLabel formatMissionId (showMissionIds Event o) in
  gridLabel Event formatMissionId o it = rule (isInEditMode Event o) it
  /\ listLabel Event formatMissionId o it = rule false it
  /\ shownLabels (createGridItem Event formatMissionId deletionMarker o it)
     = [if editingItem Event o it then VString "" else rule (isInEditMode Event o) it]
  /\ shownLabels (createListItem Event formatMissionId deletionMarker o it)
     = [rule false it]
  /\ (truthy (item_proposedLabel it) = false ->
      item_uavId it <> VUndefined ->
      item_missionIndex it <> VUndefined ->
      isInEditMode Event o = true ->
      gridLabel Event formatMissionId o it = item_uavId it)
  /\ (truthy (item_proposedLabel it) = false ->
      item_uavId it = VUndefined ->
      item_missionIndex it <> VUndefined ->
      showMissionIds Event o = true ->
      gridLabel Event formatMissionId o it = formatMissionId (item_missionIndex it)
      /\ listLabel Event formatMissionId o it = formatMissionId (item_missionIndex it)).
Proof.
  intros rule. unfold rule.
  split; [apply gridLabel_spec|]. split; [apply listLabel_spec|].
  split; [by rewrite createGridItem_shows, gridLabel_spec|].
  split; [by rewrite createListItem_shows, listLabel_spec|].
  rewrite gridLabel_spec, listLabel_spec.
  unfold specLabel, hasSlotIndex, uavIdIsEmpty. split.
  - intros -> Hu Hm ->. rewrite (bool_decide_eq_false_2 _ Hu).
    rewrite andb_false_r. by destruct (showMissionIds Event o).
  - intros -> Hu Hm ->. rewrite (bool_decide_eq_true_2 _ Hu).
    rewrite (bool_decide_eq_false_2 _ Hm). simpl.
    by rewrite orb_true_r.
Qed.
End Labels.

Lemma label_rule_of_both_builders_witness :
  gridLabel unit sampleFormatMissionId (sampleOptions true (VNumber 1)) slotWithUAV
    = VString "A"
  /\ listLabel unit sampleFormatMissionId (sampleOptions true (VNumber 1)) emptySlot
    = VString "s1".
Proof.
  pose proof (label_rule_of_both_builders sampleFormatMissionId sampleDeletionMarker
                (sampleOptions true (VNumber 1)) slotWithUAV)
    as (_ & _ & _ & _ & Hgrid & _).
  pose proof (label_rule_of_both_builders sampleFormatMissionId sampleDeletionMarker
                (sampleOptions true (VNumber 1)) emptySlot)
    as (_ & _ & _ & _ & _ & Hempty).
  split.
  - apply Hgrid; [reflexivity | discriminate | discriminate | reflexivity].
  - destruct Hempty as [_ Hlist];
      [reflexivity | reflexivity | discriminate | reflexivity | exact Hlist].
Defined.

(** C1, as stated, fails for the list builder: in edit mode, with mission
    ids displayed, the slot that holds UAV "A" is labelled with its
    mission id by [createListItems], where the rule asks for "A". *)
Lemma list_label_ignores_edit_mode :
  listLabel unit sampleFormatMissionId (sampleOptions true (VNumber 1)) slotWithUAV
    = VString "s0"
  /\ specLabel sampleFormatMissionId true true slotWithUAV = VString "A"
  /\ listLabel unit sampleFormatMissionId (sampleOptions true (VNumber 1)) slotWithUAV
     <> specLabel sampleFormatMissionId
          (showMissionIds unit (sampleOptions true (VNumber 1)))
          (isInEditMode unit (sampleOptions true (VNumber 1))) slotWithUAV.
Proof. split; [reflexivity | split; [reflexivity | discriminate]]. Qed.

Example list_item_label_in_edit_mode :
  p_children unit
    (createListItem unit sampleFormatMissionId sampleDeletionMarker
       (sampleOptions true (VNumber 1)) slotWithUAV)
  = [DroneStatusLine (VString "A") (VString "s0") false].
Proof. reflexivity. Qed.

Example grid_item_label_in_edit_mode :
  p_children unit
    (createGridItem unit sampleFormatMissionId sampleDeletionMarker
       (sampleOptions true (VNumber 1)) slotWithUAV)
  = [DroneAvatar (VString "A") false (VString "A") false].
Proof. reflexivity. Qed.

(** ** Grid items *)

Section GridItems.
Context {Event : Type} (formatMissionId : value -> value) (deletionMarker : item).

Lemma createGridItem_shape (o : options Event) (it : item) :
  describesGridItem deletionMarker it
    (createGridItem Event formatMissionId deletionMarker o it).
Proof.
  unfold describesGridItem, createGridItem, isPlaceholder, isAvatar,
    placeholderStatus, avatarIds.
  rewrite !strict_eq_undefined.
  destruct (bool_decide (item_uavId it = VUndefined));
    destruct (editingItem Event o it); simpl;
    (repeat split; try reflexivity);
    unfold same_object; try apply bool_decide_eq_true.
Qed.

(** C9.  [createGridItems] renders a placeholder exactly for the items
    whose UAV id is undefined, with status 'error' when the item has no
    mission index and 'off' when it has one; every other item is
    rendered as the avatar of its UAV; and the fill flag is set for the
    [deletionMarker] item and for no other. *)
Theorem createGridItems_placeholders_and_avatars
    (items : list item) (o : options Event) :
  Forall2 (describesGridItem deletionMarker) items
    (createGridItems Event formatMissionId deletionMarker items o).
Proof.
  unfold createGridItems. induction items as [|it items IH]; simpl.
  - constructor.
  - constructor; [apply createGridItem_shape | exact IH].
Qed.
End GridItems.

Example grid_items_of_sample_buckets :
  map (fun el => (isPlaceholder el, placeholderStatus el, avatarIds el, p_fill unit el))
    (createGridItems unit sampleFormatMissionId sampleDeletionMarker
       [slotWithUAV; emptySlot; spareUAV; sampleDeletionMarker]
       (sampleOptions false (VNumber (-1))))
  = [ (false, [], [VString "A"], false);
      (true, ["off"], [], false);
      (false, [], [VString "B"], false);
      (true, ["error"], [], true) ].
Proof. reflexivity. Qed.

(** ** The edit cursor in the presentation *)

Section Cursor.
Context {Event : Type} (formatMissionId : value -> value) (deletionMarker : item).
Context (createSelectionHandlerFactory :
           list value -> value -> value -> ClickHandler Event).
Context (toNumberOther : value -> option Z).

Let present :=
  UAVListPresentation Event formatMissionId deletionMarker
    createSelectionHandlerFactory toNumberOther.

(** With a negative cursor the mapping editor toolbar is shown and the
    slot editor toolbar is not. *)
Lemma negative_cursor_toolbars (p : props) (n : Z) :
  editingMapping p = true ->
  prop_mappingSlotBeingEdited p = VNumber n ->
  (n < 0)%Z ->
  mappingEditorToolbar_in Event (present p) = true
  /\ mappingSlotEditorToolbar_in Event (present p) = false.
Proof.
  intros He Hc Hn. unfold present, UAVListPresentation; simpl.
  rewrite He, Hc. unfold lt, ge; simpl. split.
  - apply Z.ltb_lt, Hn.
  - rewrite Z.geb_leb. apply Z.leb_gt, Hn.
Qed.

(** C6 at its failing input.  With editing active and an undefined
    cursor both [undefined < 0] and [undefined >= 0] are false: neither
    the mapping editor toolbar nor the slot editor toolbar (nor the
    ordinary UAV toolbar) is shown. *)
Theorem undefined_cursor_shows_no_toolbar (p : props) :
  editingMapping p = true ->
  prop_mappingSlotBeingEdited p = VUndefined ->
  uavToolbar_in Event (present p) = false
  /\ mappingEditorToolbar_in Event (present p) = false
  /\ mappingSlotEditorToolbar_in Event (present p) = false.
Proof.
  intros He Hc. unfold present, UAVListPresentation; simpl.
  rewrite He, Hc. by unfold lt, ge.
Qed.

(** X9.  In edit mode, dropping a UAV on a grid or list item dispatches one
    action and no more: the adjustment of the mapping that moves the
    dropped UAV to the mission index of the item.  Outside edit mode the
    items take no drops. *)
Lemma drop_dispatches_one_adjustment (p : props) (it : item) :
  let o := itemFactoryOptionsOf Event createSelectionHandlerFactory p in
  let gridItem := createGridItem Event formatMissionId deletionMarker o it in
  let listItem := createListItem Event formatMissionId deletionMarker o it in
  if editingMapping p
  then exists handler,
         p_onDrop Event gridItem = Some handler
         /\ p_onDrop Event listItem = Some handler
         /\ forall droppedUAVId,
              handler droppedUAVId
              = [adjustMissionMapping droppedUAVId (item_missionIndex it)]
  else p_onDrop Event gridItem = None /\ p_onDrop Event listItem = None.
Proof.
  unfold createGridItem, createListItem, itemFactoryOptionsOf; simpl.
  destruct (editingMapping p); simpl.
  - exists (onDropProp (item_missionIndex it)).
    by destruct (strict_eq (item_uavId it) VUndefined).
  - by destruct (strict_eq (item_uavId it) VUndefined).
Qed.

(** No item is marked as being edited while the cursor is undefined... *)
Lemma undefined_cursor_marks_no_item (o : options Event) (it : item) :
  mappingSlotBeingEdited Event o = VUndefined ->
  editingItem Event o it = false.
Proof. intros Hc. unfold editingItem. by rewrite Hc. Qed.

(** ... or negative, as long as slot indices are not negative. *)
Lemma negative_cursor_marks_no_item (o : options Event) (it : item) (n : Z) :
  mappingSlotBeingEdited Event o = VNumber n ->
  (n < 0)%Z ->
  (item_missionIndex it = VUndefined
   \/ exists k, (0 <= k)%Z /\ item_missionIndex it = VNumber k) ->
  editingItem Event o it = false.
Proof.
  intros Hc Hn Hidx. unfold editingItem. rewrite Hc. simpl.
  apply strict_eq_false_ne.
  destruct Hidx as [-> | (k & Hk & ->)]; [discriminate|].
  intros [= ->]. lia.
Qed.
End Cursor.

Lemma undefined_cursor_shows_no_toolbar_witness :
  let v := UAVListPresentation unit sampleFormatMissionId sampleDeletionMarker
             (fun _ _ _ _ => []) (fun _ => None) (sampleProps true VUndefined) in
  uavToolbar_in unit v = false
  /\ mappingEditorToolbar_in unit v = false
  /\ mappingSlotEditorToolbar_in unit v = false.
Proof.
  apply (undefined_cursor_shows_no_toolbar sampleFormatMissionId sampleDeletionMarker
           (fun _ _ _ _ => []) (fun _ => None) (sampleProps true VUndefined));
    reflexivity.
Defined.

Example toolbars_with_cursor_minus_one :
  let v := UAVListPresentation unit sampleFormatMissionId sampleDeletionMarker
             (fun _ _ _ _ => []) (fun _ => None) (sampleProps true (VNumber (-1))) in
  (uavToolbar_in unit v, mappingEditorToolbar_in unit v,
   mappingSlotEditorToolbar_in unit v) = (false, true, false).
Proof. reflexivity. Qed.

(** ** Selecting a whole section *)

Section SelectSection.
Context {State : Type}.
Context (getDisplayedIdList : State -> DisplayedIdList).
Context (getSelectedUAVIds : State -> list value).
Context (getSelectionInfo : State -> SelectionInfo).

Lemma displayedIds_from (entries : list item) (acc : list value) :
  fold_left
    (fun acc idAndLabel =>
       if negb (isNil (at_index 0 idAndLabel))
       then acc ++ [at_index 0 idAndLabel] else acc)
    entries acc
  = acc ++ realIds entries.
Proof.
  revert acc. induction entries as [|e entries IH]; intros acc; simpl.
  - by rewrite app_nil_r.
  - rewrite IH. unfold realIds; simpl. unfold item_uavId at 2.
    destruct (isNil (at_index 0 e)); simpl; [done|].
    by rewrite <- app_assoc.
Qed.

Lemma displayedIdsOf_realIds (entries : list item) :
  displayedIdsOf entries = realIds entries.
Proof. unfold displayedIdsOf. by rewrite displayedIds_from. Qed.

Lemma elem_of_realIds (entries : list item) (x : value) :
  x ∈ realIds entries <->
  isNil x = false /\ exists e, e ∈ entries /\ item_uavId e = x.
Proof.
  unfold realIds. rewrite list_elem_of_In, filter_In, negb_true_iff, in_map_iff.
  split.
  - intros [(e & He & Hin) Hnil]. split; [done|]. exists e.
    by rewrite list_elem_of_In.
  - intros [Hnil (e & Hin & He)]. split; [|done]. exists e.
    by rewrite <- list_elem_of_In.
Qed.

(** C2.  For each of the three buckets and every store state, the
    section's select action dispatches exactly one replacement of the
    selection.  With [ids] the real (non-nil) ids of the bucket, the new
    selection is the old one without [ids] when the bucket's checkbox is
    checked, and the old one joined with [ids] otherwise; an id is in
    the new selection only on these grounds. *)
Theorem onSelectSection_toggles_bucket (b : BucketName) (st : State) :
  let entries := entriesOf (getDisplayedIdList st) b in
  let ids := realIds entries in
  let old := getSelectedUAVIds st in
  let isChecked := checked (infoOf (getSelectionInfo st) b) in
  exists newSelection,
    onSelectSection State getDisplayedIdList getSelectedUAVIds getSelectionInfo
      (bucketKey b) st = [setSelectedUAVIds newSelection]
    /\ newSelection = (if isChecked then difference old ids else union old ids)
    /\ (forall x, x ∈ ids <->
                  isNil x = false /\ exists e, e ∈ entries /\ item_uavId e = x)
    /\ (forall x, x ∈ newSelection <->
                  if isChecked then x ∈ old /\ x ∉ ids else x ∈ old \/ x ∈ ids).
Proof.
  intros entries ids old isChecked.
  exists (if isChecked then difference old ids else union old ids).
  split; [|split; [reflexivity|split]].
  - unfold onSelectSection.
    replace (bucket (getDisplayedIdList st) (bucketKey b)) with (Some entries)
      by (by destruct b).
    replace (bucketInfo (getSelectionInfo st) (bucketKey b))
      with (Some (infoOf (getSelectionInfo st) b)) by (by destruct b).
    by rewrite displayedIdsOf_realIds.
  - intros x. apply elem_of_realIds.
  - intros x. destruct isChecked.
    + apply elem_of_difference.
    + apply elem_of_union.
Qed.
End SelectSection.

Example select_spares_when_only_B_is_selected :
  onSelectSection (list value * bool) (fun _ => scenarioBuckets) fst scenarioInfo
    "spareUAVIds" ([VString "B"], false)
  = [setSelectedUAVIds [VString "B"; VString "C"]].
Proof. reflexivity. Qed.

Example select_spares_again_when_all_are_selected :
  onSelectSection (list value * bool) (fun _ => scenarioBuckets) fst scenarioInfo
    "spareUAVIds" ([VString "A"; VString "B"; VString "C"], true)
  = [setSelectedUAVIds [VString "A"]].
Proof. reflexivity. Qed.

Example select_unknown_section_does_nothing :
  onSelectSection (list value * bool) (fun _ => scenarioBuckets) fst scenarioInfo
    "otherUAVIds" ([VString "B"], false)
  = [].
Proof. reflexivity. Qed.

End UAVListFacts.

(* ================================================================== *)
(** * The mission mapping *)
(* ================================================================== *)

Module MissionFacts.
Import Mission MissionReference.
Local Open Scope nat_scope.

Section Mapping.
Implicit Types (m : list (option string)) (u v : string) (i j : nat).

Lemma elem_of_mappedIds m u : u ∈ mappedIds m <-> Some u ∈ m.
Proof.
  unfold mappedIds. rewrite list_elem_of_omap. split.
  - intros (x & Hx & Hid). simpl in Hid. by subst.
  - intros Hin. by exists (Some u).
Qed.

Lemma mappedIds_cons (slot : option string) m :
  mappedIds (slot :: m)
  = match slot with Some v => v :: mappedIds m | None => mappedIds m end.
Proof. by destruct slot. Qed.

Lemma vacate_cons (slot : option string) m u :
  vacate u (slot :: m)
  = (if decide (slot = Some u) then None else slot) :: vacate u m.
Proof. reflexivity. Qed.

Lemma mappedIds_vacate m u :
  mappedIds (vacate u m) = filter (fun v => v <> u) (mappedIds m).
Proof.
  induction m as [|slot m IH]; [done|].
  rewrite vacate_cons, !mappedIds_cons, IH.
  destruct slot as [v|]; [|by rewrite decide_False by done].
  destruct (decide (Some v = Some u)) as [[= ->]|Hne].
  - by rewrite filter_cons_False by tauto.
  - by rewrite filter_cons_True by congruence.
Qed.

Lemma vacate_lookup m u j :
  vacate u m !! j
  = (fun slot => if decide (slot = Some u) then None else slot) <$> m !! j.
Proof. unfold vacate. apply list_lookup_fmap. Qed.

Lemma vacate_not_mapped m u : u ∉ mappedIds (vacate u m).
Proof. rewrite mappedIds_vacate, list_elem_of_filter. tauto. Qed.

Lemma vacate_NoDup m u : NoDup (mappedIds m) -> NoDup (mappedIds (vacate u m)).
Proof. rewrite mappedIds_vacate. apply NoDup_filter. Qed.

Lemma mappedIds_insert m u i :
  i < length m ->
  mappedIds (<[i := Some u]> m)
  = mappedIds (take i m) ++ u :: mappedIds (drop (S i) m).
Proof.
  intros Hi. rewrite insert_take_drop by done.
  unfold mappedIds. by rewrite omap_app.
Qed.

Lemma mappedIds_split m i :
  i < length m ->
  exists slot, m !! i = Some slot
    /\ mappedIds m
       = mappedIds (take i m) ++ mappedIds [slot] ++ mappedIds (drop (S i) m).
Proof.
  intros Hi. destruct (lookup_lt_is_Some_2 m i Hi) as [slot Hslot].
  exists slot. split; [done|].
  rewrite <- (take_drop_middle m i slot Hslot) at 1.
  unfold mappedIds. rewrite omap_app.
  change (slot :: drop (S i) m) with ([slot] ++ drop (S i) m).
  by rewrite omap_app.
Qed.

Lemma insert_NoDup m u i :
  NoDup (mappedIds m) -> u ∉ mappedIds m -> NoDup (mappedIds (<[i := Some u]> m)).
Proof.
  intros Hwf Hu.
  destruct (decide (i < length m)) as [Hi|Hi];
    [|by rewrite list_insert_ge by lia].
  rewrite mappedIds_insert by done.
  destruct (mappedIds_split m i Hi) as (slot & _ & Hsplit).
  rewrite Hsplit in Hwf, Hu.
  rewrite !elem_of_app in Hu.
  apply NoDup_app in Hwf as (Htake & Hdisj & Hrest).
  apply NoDup_app in Hrest as (_ & _ & Hdrop).
  apply NoDup_app. split; [done|]. split.
  - intros x Hx [->|Hx']%elem_of_cons; [tauto|].
    apply (Hdisj x Hx). rewrite elem_of_app. tauto.
  - apply NoDup_cons. split; [tauto|done].
Qed.

Lemma adjustMapping_NoDup m u (to : option nat) :
  NoDup (mappedIds m) -> NoDup (mappedIds (adjustMapping u to m)).
Proof.
  intros Hwf. destruct to as [i|]; simpl.
  - apply insert_NoDup; [by apply vacate_NoDup | apply vacate_not_mapped].
  - by apply vacate_NoDup.
Qed.

Lemma wellFormed_tail (slot : option string) m :
  wellFormed (slot :: m) -> wellFormed m.
Proof.
  intros Hwf u i j Hi Hj.
  assert (S i = S j) by (by apply (Hwf u)). lia.
Qed.

(** Being well formed is the same as the occupied ids being pairwise
    distinct. *)
Lemma wellFormed_NoDup m : wellFormed m <-> NoDup (mappedIds m).
Proof.
  split.
  - induction m as [|slot m IH]; intros Hwf; [apply NoDup_nil_2|].
    rewrite mappedIds_cons. destruct slot as [v|].
    + apply NoDup_cons. split; [|by eapply IH, wellFormed_tail].
      rewrite elem_of_mappedIds.
      intros (j & Hj)%list_elem_of_lookup_1.
      by specialize (Hwf v 0 (S j) eq_refl Hj).
    + by eapply IH, wellFormed_tail.
  - induction m as [|slot m IH]; intros Hnd u i j Hi Hj.
    + by rewrite lookup_nil in Hi.
    + rewrite mappedIds_cons in Hnd.
      assert (NoDup (mappedIds m) /\ (slot = Some u -> u ∉ mappedIds m))
        as [Hnd' Hfresh].
      { destruct slot as [v|]; [|by split].
        apply NoDup_cons in Hnd as [Hv Hnd']. split; [done|].
        by intros [= ->]. }
      destruct i as [|i], j as [|j]; simpl in Hi, Hj.
      * done.
      * exfalso. injection Hi as ->. apply Hfresh; [done|].
        apply elem_of_mappedIds. by eapply list_elem_of_lookup_2.
      * exfalso. injection Hj as ->. apply Hfresh; [done|].
        apply elem_of_mappedIds. by eapply list_elem_of_lookup_2.
      * f_equal. by apply (IH Hnd' u).
Qed.

Lemma adjustMapping_wellFormed m u (to : option nat) :
  wellFormed m -> wellFormed (adjustMapping u to m).
Proof. rewrite !wellFormed_NoDup. apply adjustMapping_NoDup. Qed.

Lemma adjustMapping_length m u (to : option nat) :
  length (adjustMapping u to m) = length m.
Proof.
  destruct to; simpl; unfold vacate;
    by rewrite ?length_insert, length_fmap.
Qed.

Lemma reduce_wellFormed (st : State) (a : action) :
  wellFormed (mapping st) -> wellFormed (mapping (reduce st a)).
Proof.
  destruct a; simpl; [apply adjustMapping_wellFormed | done].
Qed.

(** C4.  Starting from a mapping in which every UAV id occupies at most
    one slot, every state reached by dispatching any finite sequence of
    actions to the mission store has a mapping in which every UAV id
    occupies at most one slot. *)
Theorem mapping_keeps_ids_in_one_slot (st : State) (actions : list action) :
  wellFormed (mapping st) ->
  wellFormed (mapping (run st actions)).
Proof.
  unfold run. revert st.
  induction actions as [|a actions IH]; intros st Hwf; simpl; [done|].
  by apply IH, reduce_wellFormed.
Qed.
End Mapping.

Lemma sampleState_wellFormed : wellFormed (mapping sampleState).
Proof.
  intros u i j Hi Hj.
  destruct i as [|[|[|i]]]; simpl in Hi; try discriminate;
    destruct j as [|[|[|j]]]; simpl in Hj; try discriminate;
    congruence.
Defined.

Lemma mapping_keeps_ids_in_one_slot_witness :
  wellFormed (mapping (run sampleState
    [ adjustMissionMapping "C" (Some 0);
      adjustMissionMapping "A" (Some 1);
      startMappingEditorSessionAtSlot None;
      adjustMissionMapping "B" None;
      adjustMissionMapping "C" (Some 5) ])).
Proof.
  apply (mapping_keeps_ids_in_one_slot sampleState), sampleState_wellFormed.
Defined.

Example run_on_sampleState :
  mapping (run sampleState
    [ adjustMissionMapping "C" (Some 0);
      adjustMissionMapping "A" (Some 1);
      adjustMissionMapping "C" (Some 5) ])
  = [None; Some "A"].
Proof. reflexivity. Qed.

Section Selector.
Context (extraSlotsOf : State -> list Entry).
Implicit Types (st : State) (u : string) (i j : nat).

Let displayed st := getDisplayedIdList extraSlotsOf st.

Lemma idsOf_spares st :
  idsOf (spareUAVIds (displayed st))
  = filter (fun u => u ∉ mappedIds (mapping st)) (fleet st).
Proof.
  unfold displayed, getDisplayedIdList, idsOf; simpl.
  induction (filter _ (fleet st)) as [|u l IH]; [done|].
  csimpl. by f_equal.
Qed.

Lemma elem_of_spares st u :
  u ∈ idsOf (spareUAVIds (displayed st))
  <-> u ∈ fleet st /\ u ∉ mappedIds (mapping st).
Proof. rewrite idsOf_spares, list_elem_of_filter. tauto. Qed.

Lemma idsOf_tagged (tag : nat -> option nat) (m : list (option string)) :
  idsOf (imap (fun slotIndex slot => (slot, tag slotIndex, None)) m)
  = mappedIds m.
Proof.
  unfold idsOf, mappedIds. revert tag.
  induction m as [|slot m IH]; intros tag; [done|].
  rewrite imap_cons. specialize (IH (tag ∘ S)).
  destruct slot; csimpl; [f_equal|]; exact IH.
Qed.

Lemma idsOf_main st : idsOf (mainUAVIds (displayed st)) = mappedIds (mapping st).
Proof. apply (idsOf_tagged Some). Qed.

(** C3 (as amended).  On a well-formed mapping and for a slot index [i]
    within it, dispatching [adjustMissionMapping] with [uavId] and [i] is
    one transition of the store, and no state in which the move is half
    done can be observed: every observable state is the state before or
    has [uavId] in slot [i] and in no other slot.  The state after is
    well formed, the slots other than [i] that did not hold [uavId] are
    as before, and [uavId] is not among the spares.  A different UAV that
    occupied slot [i] is in no slot any more, and is among the spares
    exactly when it belongs to the fleet. *)
Theorem adjustMissionMapping_moves_in_one_step st u i :
  i < length (mapping st) ->
  wellFormed (mapping st) ->
  let st' := reduce st (adjustMissionMapping u (Some i)) in
  let spares := idsOf (spareUAVIds (getDisplayedIdList extraSlotsOf st')) in
  Forall (fun s => s = st
                   \/ (mapping s !! i = Some (Some u)
                       /\ forall j, j <> i -> mapping s !! j <> Some (Some u)))
         (observableStates st [adjustMissionMapping u (Some i)])
  /\ last (observableStates st [adjustMissionMapping u (Some i)]) = Some st'
  /\ wellFormed (mapping st')
  /\ mapping st' !! i = Some (Some u)
  /\ (forall j, j <> i -> mapping st' !! j <> Some (Some u))
  /\ (forall j, j <> i -> mapping st !! j <> Some (Some u) ->
        mapping st' !! j = mapping st !! j)
  /\ (u ∉ spares)
  /\ (forall other,
        mapping st !! i = Some (Some other) ->
        other <> u ->
        (other ∉ mappedIds (mapping st'))
        /\ (other ∈ spares <-> other ∈ fleet st)).
Proof.
  intros Hi Hwf st' spares.
  assert (Hat : mapping st' !! i = Some (Some u)).
  { simpl. apply list_lookup_insert_eq. unfold vacate. by rewrite length_fmap. }
  assert (Hother : forall j, j <> i ->
            mapping st' !! j
            = (fun slot => if decide (slot = Some u) then None else slot)
                <$> mapping st !! j).
  { intros j Hj. simpl. rewrite list_lookup_insert_ne by done.
    apply vacate_lookup. }
  assert (Honly : forall j, j <> i -> mapping st' !! j <> Some (Some u)).
  { intros j Hj. rewrite (Hother j Hj).
    destruct (mapping st !! j) as [slot|]; simpl; [|done].
    destruct (decide (slot = Some u)); congruence. }
  split.
  { simpl. apply Forall_cons. split; [by left|].
    apply Forall_cons. split; [right; by split | apply Forall_nil_2]. }
  split; [reflexivity|].
  split; [by apply reduce_wellFormed|].
  split; [exact Hat|]. split; [exact Honly|]. split; [|split].
  - intros j Hj Hfree. rewrite (Hother j Hj).
    destruct (mapping st !! j) as [slot|]; simpl; [|done].
    destruct (decide (slot = Some u)); congruence.
  - unfold spares. fold (displayed st'). rewrite elem_of_spares.
    intros [_ Hnot]. apply Hnot, elem_of_mappedIds.
    by eapply list_elem_of_lookup_2.
  - intros other Hslot Hne.
    assert (Hgone : other ∉ mappedIds (mapping st')).
    { rewrite elem_of_mappedIds. intros (j & Hj)%list_elem_of_lookup_1.
      destruct (decide (j = i)) as [->|Hji]; [congruence|].
      rewrite (Hother j Hji) in Hj.
      destruct (mapping st !! j) as [slot|] eqn:Hmj; simpl in Hj; [|done].
      destruct (decide (slot = Some u)); [done|].
      injection Hj as ->. apply Hji. by apply (Hwf other). }
    split; [exact Hgone|].
    unfold spares. fold (displayed st'). rewrite elem_of_spares. simpl. tauto.
Qed.

(** C5 (as amended).  [mainUAVIds] has exactly one entry per mapping
    slot, in slot order: its length is the slot count, the entry of slot
    [i] is (uavId or undefined, [i], undefined), and its real ids are
    the mapped ids.  The spare ids are exactly the fleet ids that are
    not mapped: no spare id is mapped, and every fleet id is either a
    spare or mapped.  (A mapped id that is not in the fleet is in
    neither the fleet nor the spares.) *)
Theorem displayed_buckets_of_mapping_and_fleet st :
  let d := getDisplayedIdList extraSlotsOf st in
  length (mainUAVIds d) = length (mapping st)
  /\ (forall i, mainUAVIds d !! i
               = (fun slot => (slot, Some i, None)) <$> mapping st !! i)
  /\ idsOf (mainUAVIds d) = mappedIds (mapping st)
  /\ (forall u, u ∈ idsOf (spareUAVIds d) <->
                u ∈ fleet st /\ u ∉ mappedIds (mapping st))
  /\ (forall u, u ∈ fleet st <->
                u ∈ idsOf (spareUAVIds d)
                \/ (u ∈ mappedIds (mapping st) /\ u ∈ fleet st)).
Proof.
  intros d. split; [apply length_imap|]. split; [intros i; apply list_lookup_imap|].
  split; [apply idsOf_main|]. split; [apply elem_of_spares|].
  intros u. unfold d. fold (displayed st). rewrite elem_of_spares.
  destruct (decide (u ∈ mappedIds (mapping st))); tauto.
Qed.

(** When every mapped id belongs to the fleet, spares and mapped ids
    partition the fleet. *)
Lemma partitionsFleet_of_known_ids st :
  (forall u, u ∈ mappedIds (mapping st) -> u ∈ fleet st) ->
  partitionsFleet st (getDisplayedIdList extraSlotsOf st).
Proof.
  intros Hknown. fold (displayed st). split.
  - intros u. rewrite elem_of_spares. tauto.
  - intros u. rewrite elem_of_spares.
    destruct (decide (u ∈ mappedIds (mapping st))); [|tauto].
    specialize (Hknown u). tauto.
Qed.
End Selector.

Lemma adjustMissionMapping_moves_in_one_step_witness :
  mapping (reduce sampleState (adjustMissionMapping "A" (Some 1))) !! 1 = Some (Some "A")
  /\ "B" ∈ idsOf (spareUAVIds (getDisplayedIdList noExtraSlots
                     (reduce sampleState (adjustMissionMapping "A" (Some 1))))).
Proof.
  pose proof (adjustMissionMapping_moves_in_one_step noExtraSlots sampleState "A" 1)
    as Hmove.
  destruct Hmove as (_ & _ & _ & Hat & _ & _ & _ & Hother);
    [simpl; lia | exact sampleState_wellFormed |].
  split; [exact Hat|].
  destruct (Hother "B") as [_ Hspare]; [reflexivity | discriminate |].
  apply Hspare. simpl. apply list_elem_of_In. simpl. tauto.
Defined.

(** C3, as stated, fails when the displaced UAV is not in the fleet: with
    fleet {B} and mapping [A, empty], moving B into slot 0 leaves A in no
    slot, but A does not appear among the spares, which are empty. *)
Lemma displaced_stale_uav_is_not_a_spare :
  mapping staleState !! 0 = Some (Some "A")
  /\ mapping (reduce staleState (adjustMissionMapping "B" (Some 0)))
     = [Some "B"; None]
  /\ spareUAVIds (getDisplayedIdList noExtraSlots
                    (reduce staleState (adjustMissionMapping "B" (Some 0))))
     = []
  /\ "A" ∉ idsOf (spareUAVIds (getDisplayedIdList noExtraSlots
                     (reduce staleState (adjustMissionMapping "B" (Some 0))))).
Proof.
  split; [reflexivity|]. split; [reflexivity|]. split; [reflexivity|].
  simpl. apply not_elem_of_nil.
Qed.

Example displayed_after_move :
  getDisplayedIdList noExtraSlots (reduce sampleState (adjustMissionMapping "A" (Some 1)))
  = {| mainUAVIds := [(None, Some 0, None); (Some "A", Some 1, None)];
       spareUAVIds := [(Some "B", None, None); (Some "C", None, None)];
       extraSlots := [] |}.
Proof. reflexivity. Qed.

(** C5, as stated, fails when the mapping names a UAV that is not in the
    fleet: with fleet {B} and mapping [A, empty], the spare ids {B} and
    the mapped ids {A} do not make up the fleet. *)
Lemma stale_mapping_does_not_partition_fleet :
  ~ partitionsFleet staleState (getDisplayedIdList noExtraSlots staleState).
Proof.
  intros [_ Hcover]. destruct (Hcover "A") as [_ Hin].
  assert (HA : "A" ∈ fleet staleState).
  { apply Hin. right. apply elem_of_mappedIds. simpl. apply list_elem_of_here. }
  simpl in HA. apply list_elem_of_singleton in HA. discriminate.
Qed.

Example displayed_of_staleState :
  getDisplayedIdList noExtraSlots staleState
  = {| mainUAVIds := [(Some "A", Some 0, None); (None, Some 1, None)];
       spareUAVIds := [(Some "B", None, None)];
       extraSlots := [] |}.
Proof. reflexivity. Qed.

End MissionFacts.

(* ================================================================== *)
(** * The UAV feature *)
(* ================================================================== *)

Module UAVFeatureFacts.
Import JS JSFacts UAVFeature Samples.
Local Open Scope N_scope.

Section Setters.
Context (degreesToRadians : value -> value).
Implicit Types (f : Feature) (v : value).

Let set_heading := set_heading degreesToRadians.
Let set_selected := set_selected degreesToRadians.
Let set_color := set_color degreesToRadians.

Lemma setupStyle_hasIcons f : hasIcons (_setupStyle degreesToRadians f).
Proof. by exists (allocated f). Qed.

Lemma reachable_hasIcons f : reachable degreesToRadians f -> hasIcons f.
Proof.
  induction 1 as [id | v f f' _ IH Hset | v f _ IH | v f _ IH].
  - apply setupStyle_hasIcons.
  - destruct IH as (r & Hi & Hs). unfold UAVFeature.set_heading in Hset.
    destruct (strict_eq (_heading f) v); [injection Hset as <-; by exists r|].
    simpl in Hset. rewrite Hi, Hs in Hset. injection Hset as <-. by exists r.
  - unfold UAVFeature.set_selected.
    destruct (strict_eq (_selected f) v); [done | apply setupStyle_hasIcons].
  - unfold UAVFeature.set_color.
    destruct (strict_eq (_color f) v); [done | apply setupStyle_hasIcons].
Qed.

(** The heading setter never throws on a feature the program can hold. *)
Lemma set_heading_returns f v :
  reachable degreesToRadians f -> exists f', set_heading v f = Ok f'.
Proof.
  intros (r & Hi & Hs)%reachable_hasIcons.
  unfold set_heading, UAVFeature.set_heading.
  destruct (strict_eq (_heading f) v); [by eexists|].
  simpl. rewrite Hi, Hs. by eexists.
Qed.


End Setters.


Example heading_change_turns_both_icons :
  forall f', set_heading sampleRotation (VNumber 90) sampleFeature = Ok f' ->
    rotation <$> icons f' !! 0 = Some (VNumber 90)
    /\ rotation <$> icons f' !! 2 = Some (VNumber 90)
    /\ calls f' = calls sampleFeature
                  ++ [SetRotation 0 (VNumber 90); SetRotation 2 (VNumber 90)].
Proof. intros f' [= <-]. by vm_compute. Qed.

Example selecting_puts_the_glow_first :
  map content (style (set_selected sampleRotation (VBool true) sampleFeature))
  = [ Image 8; Image 6;
      Label {| font := "12px sans-serif"; offsetY := 24%Z;
               text := VString "07"; textAlign := "center" |} ].
Proof. reflexivity. Qed.

End UAVFeatureFacts.

(* ================================================================== *)
(** * Layer types *)
(* ================================================================== *)

Module LayersFacts.
Import JS JSFacts Layers.

Lemma untyped_is_known :
  propertiesOf (LayerType_ "UNTYPED")
  = Own {| label := "Untyped layer"; icon := "ActionHelpOutline"; parameters := None |}.
Proof. by vm_compute. Qed.

(** A falsey layer type gives an untyped, invisible layer. *)
Lemma createNewLayer_without_type (layerType name : value) (params : json) :
  truthy layerType = false ->
  createNewLayer layerType name params
  = Ok {| layer_type := LayerType_ "UNTYPED"; layer_label := name;
          layer_visible := false;
          layer_parameters := if json_truthy params then params else JObject [] |}.
Proof.
  intros Hfalsy. unfold createNewLayer, or_else. rewrite Hfalsy.
  destruct (json_truthy params); [done|].
  unfold defaultParametersForLayerType. by rewrite untyped_is_known.
Qed.

(** A truthy layer type is kept, and the layer is visible exactly when
    the type is not 'untyped'; this needs either parameters or a type
    that [propertiesForLayerTypes_] knows. *)
Lemma createNewLayer_with_type (layerType name : value) (params : json) :
  truthy layerType = true ->
  (if json_truthy params then True else propertiesOf layerType <> Missing) ->
  exists parameters,
    createNewLayer layerType name params
    = Ok {| layer_type := layerType; layer_label := name;
            layer_visible := negb (strict_eq layerType (LayerType_ "UNTYPED"));
            layer_parameters := parameters |}
    /\ (if json_truthy params then parameters = params
        else defaultParametersForLayerType layerType = Ok parameters).
Proof.
  intros Htruthy Hknown. unfold createNewLayer, or_else. rewrite Htruthy.
  destruct (json_truthy params); [by exists params|].
  unfold defaultParametersForLayerType in *.
  destruct (propertiesOf layerType) as [props| |]; [by eexists | by eexists | done].
Qed.

(** Every constant of the enum but [UAVTrace] is a key of the table. *)
Lemma known_layer_types :
  List.filter
    (fun kv => match propertiesOf (VString (snd kv)) with
               | Missing => true | _ => false end)
    LayerType
  = [("UAVTrace", "uavtrace")].
Proof. by vm_compute. Qed.

(** C10 at its failing input.  The enum spells the constant [UAVTrace],
    the table of layer properties is keyed by [LayerType.UAVTRACE], which
    is undefined; so the layer type 'uavtrace' has no entry, and creating
    a layer of that type without parameters throws instead of returning a
    layer with default parameters. *)
Theorem createNewLayer_of_uavtrace_throws :
  LayerType_ "UAVTrace" = VString "uavtrace"
  /\ LayerType_ "UAVTRACE" = VUndefined
  /\ propertiesOf (LayerType_ "UAVTrace") = Missing
  /\ defaultParametersForLayerType (LayerType_ "UAVTrace") = Throw "TypeError"
  /\ createNewLayer (LayerType_ "UAVTrace") (VString "Trace") JUndefined
     = Throw "TypeError".
Proof. by vm_compute. Qed.

Example createNewLayer_geojson :
  createNewLayer (LayerType_ "GEOJSON") (VString "Zones") JUndefined
  = Ok {| layer_type := VString "geojson"; layer_label := VString "Zones";
          layer_visible := true;
          layer_parameters := JObject
            [ ("data", JObject []);
              ("strokeColor", rgba 85 85 225 1);
              ("strokeWidth", num 2);
              ("fillColor", rgba 170 170 225 (1 # 2)) ] |}.
Proof. by vm_compute. Qed.

Example createNewLayer_untyped :
  createNewLayer VUndefined (VString "New layer") JUndefined
  = Ok {| layer_type := VString "untyped"; layer_label := VString "New layer";
          layer_visible := false; layer_parameters := JObject [] |}.
Proof. by vm_compute. Qed.

Example trace_defaults_are_filed_under_undefined :
  defaultParametersForLayerType (VString "undefined")
  = Ok (JObject [ ("trailLength", num 10); ("trailWidth", num 2);
                  ("trailColor", rgba 0 0 0 1) ]).
Proof. by vm_compute. Qed.

End LayersFacts.

(* ================================================================== *)
(** * The settings panel of the GeoJSON layer *)
(* ================================================================== *)

Module GeoJSONFacts.
Import JS Layers GeoJSON Samples.

Section HandleClick.
Context (JSON_parse : string -> option json) (toNumber : json -> json).
Implicit Types (layerId : value) (st : ComponentState)
  (layers : gmap string StoredLayer).

Let click := _handleClick JSON_parse toNumber.

Lemma reduce_lookup layers layerId parameter (v : json) (id : string) :
  reduce layers (setLayerParameterById layerId parameter v) !! id
  = (fun l => if decide (to_string layerId = id)
              then {| stored_type := stored_type l;
                      stored_parameters := <[parameter := v]> (stored_parameters l) |}
              else l) <$> layers !! id.
Proof.
  simpl. rewrite lookup_alter.
  destruct (decide (to_string layerId = id)) as [->|_]; [done|].
  by destruct (layers !! id).
Qed.

(** C7 (as amended).  The update handler first stores the stroke width,
    whatever the text is.  If parsing the text fails, it then shows the
    error notification and nothing else: the [data] parameter, and every
    parameter other than [strokeWidth], of every layer stays as it was.
    If parsing succeeds, it sets the [data] parameter of the layer to the
    parsed value and shows the success notification. *)
Theorem handleClick_discards_invalid_data layerId st layers :
  (JSON_parse (data st) = None ->
     click layerId st
     = [ setLayerParameterById layerId "strokeWidth" (toNumber (strokeWidth st));
         showNotification "Invalid GeoJSON data." "error" ]
     /\ forall id parameter,
          parameter <> "strokeWidth" ->
          (stored_parameters <$> dispatchAll layers (click layerId st) !! id)
            ≫= (.!! parameter)
          = (stored_parameters <$> layers !! id) ≫= (.!! parameter))
  /\ (forall parsedData, JSON_parse (data st) = Some parsedData ->
     click layerId st
     = [ setLayerParameterById layerId "strokeWidth" (toNumber (strokeWidth st));
         setLayerParameterById layerId "data" parsedData;
         showNotification "GeoJSON imported successfully." "success" ]
     /\ forall l, layers !! to_string layerId = Some l ->
          (stored_parameters <$> dispatchAll layers (click layerId st) !! to_string layerId)
            ≫= (.!! "data")
          = Some parsedData).
Proof.
  unfold click, _handleClick. split.
  - intros ->. split; [done|]. intros id parameter Hp.
    unfold dispatchAll. cbn [fold_left]. change (reduce ?m (showNotification _ _)) with m.
    rewrite reduce_lookup. destruct (layers !! id) as [l|]; [|done]. simpl.
    destruct (decide (to_string layerId = id)); [|done].
    simpl. by rewrite lookup_insert_ne.
  - intros parsedData ->. split; [done|]. intros l Hl.
    unfold dispatchAll. cbn [fold_left]. change (reduce ?m (showNotification _ _)) with m.
    rewrite !reduce_lookup, Hl. simpl.
    rewrite !decide_True by done. simpl. by rewrite lookup_insert_eq.
Qed.
End HandleClick.

Lemma handleClick_discards_invalid_data_witness :
  notifications (_handleClick sampleParse sampleToNumber (VString "layer1") invalidInput)
    = [("Invalid GeoJSON data.", "error")]
  /\ notifications (_handleClick sampleParse sampleToNumber (VString "layer1") validInput)
    = [("GeoJSON imported successfully.", "success")].
Proof.
  pose proof (handleClick_discards_invalid_data sampleParse sampleToNumber
                (VString "layer1") invalidInput sampleLayers) as [Hbad _].
  pose proof (handleClick_discards_invalid_data sampleParse sampleToNumber
                (VString "layer1") validInput sampleLayers) as [_ Hgood].
  destruct Hbad as [-> _]; [reflexivity|].
  destruct (Hgood (JObject [])) as [-> _]; [reflexivity|].
  split; reflexivity.
Defined.

(** C7, as stated, fails: with a text that is not JSON in the data field
    and "5" in the stroke width field, the handler shows the error
    notification but the stored stroke width of the layer has changed
    from 2 to 5. *)
Lemma invalid_data_still_updates_stroke_width :
  sampleParse (data invalidInput) = None
  /\ _handleClick sampleParse sampleToNumber (VString "layer1") invalidInput
     = [ setLayerParameterById (VString "layer1") "strokeWidth" (num 5);
         showNotification "Invalid GeoJSON data." "error" ]
  /\ (stored_parameters <$> sampleLayers !! "layer1") ≫= (.!! "strokeWidth")
     = Some (num 2)
  /\ (stored_parameters <$>
        dispatchAll sampleLayers
          (_handleClick sampleParse sampleToNumber (VString "layer1") invalidInput)
        !! "layer1") ≫= (.!! "strokeWidth")
     = Some (num 5)
  /\ dispatchAll sampleLayers
       (_handleClick sampleParse sampleToNumber (VString "layer1") invalidInput)
     <> sampleLayers.
Proof.
  split; [reflexivity|]. split; [reflexivity|]. split; [by vm_compute|].
  assert (Hafter :
    (stored_parameters <$>
        dispatchAll sampleLayers
          (_handleClick sampleParse sampleToNumber (VString "layer1") invalidInput)
        !! "layer1") ≫= (.!! "strokeWidth") = Some (num 5)) by (by vm_compute).
  split; [exact Hafter|].
  intros Heq. rewrite Heq in Hafter. vm_compute in Hafter. discriminate.
Qed.

End GeoJSONFacts.


(* ================================================================== *)
(** * More on the UAV list *)
(* ================================================================== *)

Module UAVListMore.
Import JS JSFacts UAVList Reference ExtraReference UAVListFacts.
Local Open Scope nat_scope.

Section Items.
Context {Event : Type} (formatMissionId : value -> value) (deletionMarker : item).
Implicit Types (o : options Event) (it : item).

Let gridItem o it := createGridItem Event formatMissionId deletionMarker o it.
Let listItem o it := createListItem Event formatMissionId deletionMarker o it.

Lemma labels_agree_on_placeholders o it :
  item_uavId it = VUndefined ->
  gridLabel Event formatMissionId o it = listLabel Event formatMissionId o it.
Proof.
  intros Hu. rewrite gridLabel_spec, listLabel_spec.
  unfold specLabel, uavIdIsEmpty. rewrite (bool_decide_eq_true_2 _ Hu).
  simpl. by rewrite orb_true_r.
Qed.

(** X1.  For every item and every options object the grid builder and
    the list builder give the list item the same key, click handler,
    drop handler, editing flag, selected flag and fill flag: changing the
    layout changes how an item looks, not which item it is or how it
    reacts. *)
Theorem builders_agree_on_key_and_handlers o it :
  p_key Event (gridItem o it) = p_key Event (listItem o it)
  /\ p_onClick Event (gridItem o it) = p_onClick Event (listItem o it)
  /\ p_onDrop Event (gridItem o it) = p_onDrop Event (listItem o it)
  /\ p_editing Event (gridItem o it) = p_editing Event (listItem o it)
  /\ p_selected Event (gridItem o it) = p_selected Event (listItem o it)
  /\ p_fill Event (gridItem o it) = p_fill Event (listItem o it).
Proof.
  assert (Hkey : p_key Event (gridItem o it) = p_key Event (listItem o it)).
  { unfold gridItem, listItem, createGridItem, createListItem, itemKey.
    destruct (strict_eq (item_uavId it) VUndefined) eqn:Hu; simpl; [|done].
    rewrite strict_eq_undefined in Hu. apply bool_decide_eq_true in Hu.
    by rewrite (labels_agree_on_placeholders o it Hu). }
  split; [exact Hkey|].
  unfold gridItem, listItem, createGridItem, createListItem.
  by destruct (strict_eq (item_uavId it) VUndefined).
Qed.

Lemma createGridItems_lookup (items : list item) o (i : nat) :
  createGridItems Event formatMissionId deletionMarker items o !! i
  = gridItem o <$> items !! i.
Proof. unfold createGridItems. apply list_lookup_fmap. Qed.

Lemma createListItems_lookup (items : list item) o (i : nat) :
  createListItems Event formatMissionId deletionMarker items o !! i
  = listItem o <$> items !! i.
Proof. unfold createListItems. apply list_lookup_fmap. Qed.

Lemma editing_item_is_at_cursor o it :
  editingItem Event o it = true ->
  item_missionIndex it = mappingSlotBeingEdited Event o
  /\ item_missionIndex it <> VUndefined.
Proof.
  unfold editingItem. intros [Hdef Heq]%andb_true_iff.
  apply strict_eq_true in Heq as [Heq _]. split; [done|].
  rewrite Heq. intros Hundef. by rewrite Hundef in Hdef.
Qed.

(** X2.  When the entries that have a mission index have pairwise
    different ones, each builder marks at most one of the rendered items
    as the one being edited. *)
Theorem at_most_one_item_is_edited (items : list item) o (i j : nat)
    (a b : DroneListItem Event) :
  distinctMissionIndices items ->
  (createGridItems Event formatMissionId deletionMarker items o !! i = Some a
   /\ createGridItems Event formatMissionId deletionMarker items o !! j = Some b)
  \/ (createListItems Event formatMissionId deletionMarker items o !! i = Some a
      /\ createListItems Event formatMissionId deletionMarker items o !! j = Some b) ->
  p_editing Event a = true ->
  p_editing Event b = true ->
  i = j.
Proof.
  intros Hdistinct Hab Ha Hb.
  assert (exists x y, items !! i = Some x /\ items !! j = Some y
                      /\ editingItem Event o x = true
                      /\ editingItem Event o y = true) as (x & y & Hx & Hy & Ex & Ey).
  { destruct Hab as [[Hi Hj]|[Hi Hj]].
    - rewrite createGridItems_lookup in Hi, Hj.
      destruct (items !! i) as [x|]; [|done]. destruct (items !! j) as [y|]; [|done].
      injection Hi as <-. injection Hj as <-. exists x, y.
      pose proof (builders_agree_on_key_and_handlers o x) as (_ & _ & _ & Hx & _).
      pose proof (builders_agree_on_key_and_handlers o y) as (_ & _ & _ & Hy & _).
      rewrite Hx in Ha. rewrite Hy in Hb. by repeat split.
    - rewrite createListItems_lookup in Hi, Hj.
      destruct (items !! i) as [x|]; [|done]. destruct (items !! j) as [y|]; [|done].
      injection Hi as <-. injection Hj as <-. exists x, y. by repeat split. }
  apply editing_item_is_at_cursor in Ex as [Ex Hdef].
  apply editing_item_is_at_cursor in Ey as [Ey _].
  apply (Hdistinct i j x y Hx Hy); [congruence | done].
Qed.

(** X7.  The key of an item that has a UAV id is that id.  An item
    without UAV id and without label (no proposed label, mission ids not
    displayed) gets the key 'placeholder-null' from both builders, so
    two such items share their key. *)
Theorem unlabelled_placeholders_share_a_key o (a b : item) :
  showMissionIds Event o = false ->
  item_uavId a = VUndefined -> truthy (item_proposedLabel a) = false ->
  item_uavId b = VUndefined -> truthy (item_proposedLabel b) = false ->
  p_key Event (gridItem o a) = VString "placeholder-null"
  /\ p_key Event (gridItem o b) = p_key Event (gridItem o a)
  /\ p_key Event (listItem o b) = p_key Event (listItem o a).
Proof.
  intros Hshow Hua Hpa Hub Hpb.
  assert (Hkey : forall it, item_uavId it = VUndefined ->
            truthy (item_proposedLabel it) = false ->
            p_key Event (gridItem o it) = VString "placeholder-null").
  { intros it Hu Hp.
    unfold gridItem, createGridItem, itemKey, gridLabel, or_else.
    rewrite Hu, Hp, Hshow. reflexivity. }
  pose proof (builders_agree_on_key_and_handlers o a) as [Ha _].
  pose proof (builders_agree_on_key_and_handlers o b) as [Hb _].
  rewrite <- Ha, <- Hb, !Hkey by done. done.
Qed.

Lemma key_of_item_with_uav o it :
  item_uavId it <> VUndefined ->
  p_key Event (gridItem o it) = item_uavId it
  /\ p_key Event (listItem o it) = item_uavId it.
Proof.
  intros Hu.
  pose proof (builders_agree_on_key_and_handlers o it) as [<- _].
  unfold gridItem, createGridItem, itemKey.
  rewrite strict_eq_undefined, (bool_decide_eq_false_2 _ Hu). done.
Qed.
End Items.

Lemma scenarioItems_distinct : distinctMissionIndices scenarioItems.
Proof.
  intros i j a b Hi Hj Heq Hdef.
  destruct i as [|[|[|[|i]]]]; simpl in Hi; try discriminate;
    injection Hi as <-;
    destruct j as [|[|[|[|j]]]]; simpl in Hj; try discriminate;
    injection Hj as <-;
    try reflexivity; try discriminate; by destruct Hdef.
Defined.

Lemma at_most_one_item_is_edited_witness :
  distinctMissionIndices scenarioItems /\ (1 = 1)%nat.
Proof.
  split; [exact scenarioItems_distinct|].
  apply (at_most_one_item_is_edited sampleFormatMissionId sampleDeletionMarker
           scenarioItems (sampleOptions true (VNumber 1)) 1 1
           (createGridItem unit sampleFormatMissionId sampleDeletionMarker
              (sampleOptions true (VNumber 1)) emptySlot)
           (createGridItem unit sampleFormatMissionId sampleDeletionMarker
              (sampleOptions true (VNumber 1)) emptySlot));
    [exact scenarioItems_distinct | left; split; reflexivity
    | reflexivity | reflexivity].
Defined.

Lemma unlabelled_placeholders_share_a_key_witness :
  p_key unit (createGridItem unit sampleFormatMissionId sampleDeletionMarker
                plainOptions emptySlot)
    = VString "placeholder-null"
  /\ p_key unit (createGridItem unit sampleFormatMissionId sampleDeletionMarker
                  plainOptions otherEmptySlot)
    = p_key unit (createGridItem unit sampleFormatMissionId sampleDeletionMarker
                    plainOptions emptySlot)
  /\ p_key unit (createListItem unit sampleFormatMissionId sampleDeletionMarker
                  plainOptions otherEmptySlot)
    = p_key unit (createListItem unit sampleFormatMissionId sampleDeletionMarker
                    plainOptions emptySlot).
Proof.
  apply (unlabelled_placeholders_share_a_key sampleFormatMissionId sampleDeletionMarker
           plainOptions emptySlot otherEmptySlot); reflexivity.
Defined.

Section Presented.
Context {Event : Type} (formatMissionId : value -> value) (deletionMarker : item).
Context (createSelectionHandlerFactory :
           list value -> value -> value -> ClickHandler Event).
Context (toNumberOther : value -> option Z).

Let present :=
  UAVListPresentation Event formatMissionId deletionMarker
    createSelectionHandlerFactory toNumberOther.
Let optionsOf := itemFactoryOptionsOf Event createSelectionHandlerFactory.

(** X3.  In edit mode a click on any item, grid or list, starts the
    slot editor at the mission index of the item and does nothing else,
    and avatars are draggable.  Outside edit mode the click goes to the
    selection handler made for the current selection, with the UAV id and
    mission index of the item, and avatars are not draggable. *)
Theorem click_follows_the_mode (p : props) (it : item) :
  let gridItem := createGridItem Event formatMissionId deletionMarker (optionsOf p) it in
  let listItem := createListItem Event formatMissionId deletionMarker (optionsOf p) it in
  exists handler,
    p_onClick Event gridItem = Some handler
    /\ p_onClick Event listItem = Some handler
    /\ (if editingMapping p
        then forall event,
               handler event
               = [startMappingEditorSessionAtSlot (item_missionIndex it)]
        else handler
             = createSelectionHandlerFactory (prop_selectedUAVIds p)
                 (item_uavId it) (item_missionIndex it))
    /\ (p_draggable Event gridItem
        = if strict_eq (item_uavId it) VUndefined then None
          else Some (editingMapping p)).
Proof.
  unfold optionsOf, createGridItem, createListItem, itemFactoryOptionsOf; simpl.
  destruct (editingMapping p); simpl.
  - exists (onStartEditing Event (item_uavId it) (item_missionIndex it)).
    by destruct (strict_eq (item_uavId it) VUndefined).
  - exists (createSelectionHandlerFactory (prop_selectedUAVIds p)
              (item_uavId it) (item_missionIndex it)).
    by destruct (strict_eq (item_uavId it) VUndefined).
Qed.

(** X5.  At most one of the three toolbars is shown at any time.
    Exactly one is shown unless editing is active and the edit cursor
    does not convert to a number (undefined, NaN). *)
Theorem one_toolbar_at_a_time (p : props) :
  toolbarsShown (present p)
  = if editingMapping p
    then match to_number toNumberOther (prop_mappingSlotBeingEdited p) with
         | Some _ => 1
         | None => 0
         end
    else 1.
Proof.
  unfold toolbarsShown, present, UAVListPresentation, lt, ge; simpl.
  destruct (editingMapping p); simpl; [|done].
  destruct (to_number toNumberOther (prop_mappingSlotBeingEdited p)) as [n|];
    [|done].
  rewrite Z.geb_leb. destruct (Z.ltb_spec n 0), (Z.leb_spec 0 n); simpl; lia.
Qed.

Lemma UAVListSection_hidden (forceVisible : bool) (ids : list item)
    (o : options Event) (layout label val : string) (info : CheckboxInfo) :
  UAVListSection Event formatMissionId deletionMarker forceVisible ids o
    layout label val info = None
  <-> ids = [] /\ forceVisible = false.
Proof.
  unfold UAVListSection. destruct ids, forceVisible; simpl; split;
    try done; intros [? ?]; done.
Qed.

(** X4.  The section of assigned UAVs is rendered exactly when the
    bucket is not empty; the section of spare UAVs is rendered exactly
    when the bucket is not empty or editing is active.  A rendered
    section has one item per bucket entry. *)
Theorem sections_shown (p : props) :
  (assignedSection Event (present p) = None <-> mainUAVIds (uavIds p) = [])
  /\ (spareSection Event (present p) = None
      <-> spareUAVIds (uavIds p) = [] /\ editingMapping p = false)
  /\ (forall v, assignedSection Event (present p) = Some v ->
        length (s_items Event v) = length (mainUAVIds (uavIds p)))
  /\ (forall v, spareSection Event (present p) = Some v ->
        length (s_items Event v) = length (spareUAVIds (uavIds p))).
Proof.
  unfold present, UAVListPresentation; simpl.
  assert (Hitems : forall fv ids o (v : UAVListSectionView Event) label val info,
            UAVListSection Event formatMissionId deletionMarker fv ids o
              (layout p) label val info = Some v ->
            length (s_items Event v) = length ids).
  { intros fv ids o v label val info. unfold UAVListSection, itemFactoryOf.
    destruct (_ && _); [done|]. intros [= <-]; simpl.
    destruct (String.eqb (layout p) "grid");
      unfold createGridItems, createListItems; apply length_map. }
  split; [|split; [|split]].
  - rewrite UAVListSection_hidden. tauto.
  - apply UAVListSection_hidden.
  - intros v. apply Hitems.
  - intros v. apply Hitems.
Qed.

(** X6.  The layout decides how the two sections are built and nothing
    else: the toolbars, the drag-and-drop wrapper and the bottom bar of
    extra slots are the same for every layout, the bottom bar being made
    of grid items even in the list layout; it is there exactly when
    there are extra slots. *)
Theorem bottom_bar_ignores_layout (p : props) (l : string) :
  bottomBar Event (present (withLayout l p)) = bottomBar Event (present p)
  /\ (bottomBar Event (present p) = None <-> extraSlots (uavIds p) = [])
  /\ (forall items, bottomBar Event (present p) = Some items ->
        items = createGridItems Event formatMissionId deletionMarker
                  (extraSlots (uavIds p)) (optionsOf p))
  /\ uavToolbar_in Event (present (withLayout l p)) = uavToolbar_in Event (present p)
  /\ mappingEditorToolbar_in Event (present (withLayout l p))
     = mappingEditorToolbar_in Event (present p)
  /\ mappingSlotEditorToolbar_in Event (present (withLayout l p))
     = mappingSlotEditorToolbar_in Event (present p)
  /\ dndProvider Event (present (withLayout l p)) = dndProvider Event (present p).
Proof.
  unfold present, UAVListPresentation, optionsOf; simpl.
  split; [done|]. split; [|split; [|done]].
  - destruct (extraSlots (uavIds p)); simpl; split; done.
  - intros items. destruct (0 <? _); [|done]. by intros [= <-].
Qed.
End Presented.

Section Selecting.
Context {State : Type}.
Context (getDisplayedIdList : State -> DisplayedIdList).
Context (getSelectedUAVIds : State -> list value).
Context (getSelectionInfo : State -> SelectionInfo).

Let select := onSelectSection State getDisplayedIdList getSelectedUAVIds getSelectionInfo.

Lemma select_section_dispatch (b : BucketName) (st : State) :
  select (bucketKey b) st
  = [setSelectedUAVIds
       (if checked (infoOf (getSelectionInfo st) b)
        then difference (getSelectedUAVIds st)
               (realIds (entriesOf (getDisplayedIdList st) b))
        else union (getSelectedUAVIds st)
               (realIds (entriesOf (getDisplayedIdList st) b)))].
Proof.
  unfold select, onSelectSection.
  replace (bucket (getDisplayedIdList st) (bucketKey b))
    with (Some (entriesOf (getDisplayedIdList st) b)) by (by destruct b).
  replace (bucketInfo (getSelectionInfo st) (bucketKey b))
    with (Some (infoOf (getSelectionInfo st) b)) by (by destruct b).
  by rewrite displayedIdsOf_realIds.
Qed.

Lemma difference_sublist (old ids : list value) : difference old ids `sublist_of` old.
Proof.
  unfold difference. induction old as [|x old IH]; simpl; [constructor|].
  destruct (negb (includes ids x)); by constructor.
Qed.

Lemma push_unique_fresh (l acc : list value) :
  NoDup (acc ++ l) -> fold_left push_unique l acc = acc ++ l.
Proof.
  revert acc. induction l as [|y l IH]; intros acc Hnd; simpl.
  - by rewrite app_nil_r.
  - assert (Hy : y ∉ acc).
    { apply NoDup_app in Hnd as (_ & Hdisj & _). intros Hin.
      apply (Hdisj y Hin). apply list_elem_of_here. }
    unfold push_unique at 2. rewrite (proj2 (includes_false acc y) Hy).
    rewrite IH; rewrite <- app_assoc; done.
Qed.

Lemma push_unique_extends (l acc : list value) :
  exists added,
    fold_left push_unique l acc = acc ++ added
    /\ forall x, x ∈ added <-> x ∈ l /\ x ∉ acc.
Proof.
  revert acc. induction l as [|y l IH]; intros acc; simpl.
  - exists []. rewrite app_nil_r. split; [done|]. intros x.
    rewrite elem_of_nil. tauto.
  - unfold push_unique at 2. destruct (includes acc y) eqn:Hy.
    + apply includes_elem_of in Hy. destruct (IH acc) as (added & -> & Hadded).
      exists added. split; [done|]. intros x. rewrite Hadded, elem_of_cons.
      split; [tauto|]. intros [[->|Hx] Hacc]; tauto.
    + apply includes_false in Hy.
      destruct (IH (acc ++ [y])) as (added & -> & Hadded).
      exists (y :: added). rewrite <- app_assoc. split; [done|].
      intros x. rewrite !elem_of_cons, Hadded, elem_of_app, list_elem_of_singleton.
      destruct (decide (x = y)) as [->|Hne]; tauto.
Qed.

Lemma union_extends (old ids : list value) :
  NoDup old ->
  exists added,
    union old ids = old ++ added
    /\ forall x, x ∈ added <-> x ∈ ids /\ x ∉ old.
Proof.
  intros Hnd. unfold union, uniq. rewrite fold_left_app.
  rewrite (push_unique_fresh old []) by done. simpl.
  apply push_unique_extends.
Qed.

(** X10.  When the selection holds no id twice, selecting a section
    keeps the order of what was selected: for a checked section the new
    selection is the old one with the ids of the bucket left out
    (a sublist); for an unchecked section it is the old one followed by
    the ids of the bucket that were not yet selected, and is again free
    of duplicates. *)
Theorem select_section_keeps_order (b : BucketName) (st : State) :
  NoDup (getSelectedUAVIds st) ->
  let ids := realIds (entriesOf (getDisplayedIdList st) b) in
  let old := getSelectedUAVIds st in
  exists newSelection,
    select (bucketKey b) st = [setSelectedUAVIds newSelection]
    /\ NoDup newSelection
    /\ if checked (infoOf (getSelectionInfo st) b)
       then newSelection `sublist_of` old
       else exists added,
              newSelection = old ++ added
              /\ forall x, x ∈ added <-> x ∈ ids /\ x ∉ old.
Proof.
  intros Hnd ids old.
  exists (if checked (infoOf (getSelectionInfo st) b)
          then difference old ids else union old ids).
  split; [apply select_section_dispatch|].
  destruct (checked (infoOf (getSelectionInfo st) b)).
  - split; [|apply difference_sublist].
    eapply sublist_NoDup; [exact Hnd | apply difference_sublist].
  - split; [apply NoDup_union | by apply union_extends].
Qed.
(** X8.  Selecting an unchecked section and then, with the section now
    checked, selecting it again does not bring the old selection back:
    after the first step every id of the bucket is selected, after the
    second none is, including those that were selected at the start; the
    ids outside the bucket are selected exactly as before. *)
Theorem select_twice_clears_bucket (b : BucketName) (st1 st2 : State)
    (s1 : list value) :
  checked (infoOf (getSelectionInfo st1) b) = false ->
  select (bucketKey b) st1 = [setSelectedUAVIds s1] ->
  getSelectedUAVIds st2 = s1 ->
  entriesOf (getDisplayedIdList st2) b = entriesOf (getDisplayedIdList st1) b ->
  checked (infoOf (getSelectionInfo st2) b) = true ->
  let ids := realIds (entriesOf (getDisplayedIdList st1) b) in
  exists s2,
    select (bucketKey b) st2 = [setSelectedUAVIds s2]
    /\ (forall x, x ∈ ids -> x ∈ s1 /\ x ∉ s2)
    /\ (forall x, x ∈ s2 <-> x ∈ getSelectedUAVIds st1 /\ x ∉ ids).
Proof.
  intros Hunchecked Hfirst Hsel Hsame Hchecked ids.
  rewrite select_section_dispatch, Hunchecked in Hfirst.
  injection Hfirst as <-.
  eexists. split.
  { rewrite select_section_dispatch, Hchecked, Hsel, Hsame. reflexivity. }
  fold ids. split.
  - intros x Hx. rewrite elem_of_difference, elem_of_union. tauto.
  - intros x. rewrite elem_of_difference, elem_of_union. tauto.
Qed.

(** The select action dispatches nothing exactly when the name it
    carries is not the name of one of the three buckets (own properties
    only). *)
Lemma select_unknown_section_is_ignored (name : string) (st : State) :
  select name st = [] <-> name ∉ bucketNames.
Proof.
  unfold select, onSelectSection, bucket, bucketInfo, bucketNames.
  rewrite !not_elem_of_cons, elem_of_nil.
  destruct (String.eqb_spec name "mainUAVIds") as [->|H1]; [split; [done|tauto]|].
  destruct (String.eqb_spec name "spareUAVIds") as [->|H2]; [split; [done|tauto]|].
  destruct (String.eqb_spec name "extraSlots") as [->|H3]; [split; [done|tauto]|].
  tauto.
Qed.
End Selecting.

Lemma select_section_keeps_order_witness :
  exists newSelection,
    onSelectSection (list value * bool) (fun _ => scenarioBuckets) fst scenarioInfo
      "spareUAVIds" ([VString "B"], false) = [setSelectedUAVIds newSelection]
    /\ NoDup newSelection
    /\ exists added,
         newSelection = [VString "B"] ++ added
         /\ forall x, x ∈ added <->
              x ∈ realIds (spareUAVIds scenarioBuckets) /\ x ∉ [VString "B"].
Proof.
  apply (select_section_keeps_order (fun _ => scenarioBuckets) fst scenarioInfo
           SpareUAVIds ([VString "B"], false)).
  simpl. apply NoDup_singleton.
Defined.

Lemma select_twice_clears_bucket_witness :
  exists s2,
    onSelectSection (list value * bool) (fun _ => scenarioBuckets) fst scenarioInfo
      "spareUAVIds" ([VString "B"; VString "C"], true) = [setSelectedUAVIds s2]
    /\ (forall x, x ∈ realIds (spareUAVIds scenarioBuckets) ->
          x ∈ [VString "B"; VString "C"] /\ x ∉ s2)
    /\ (forall x, x ∈ s2 <->
          x ∈ [VString "B"] /\ x ∉ realIds (spareUAVIds scenarioBuckets)).
Proof.
  apply (select_twice_clears_bucket (fun _ => scenarioBuckets) fst scenarioInfo
           SpareUAVIds ([VString "B"], false) ([VString "B"; VString "C"], true)
           [VString "B"; VString "C"]); reflexivity.
Defined.

End UAVListMore.


(* ================================================================== *)
(** * More on layer types *)
(* ================================================================== *)

Module LayersMore.
Import JS JSFacts Layers ExtraReference.

(** X11.  [createNewLayer] throws exactly when it is given no (truthy)
    parameters and the effective layer type has no entry in the table of
    layer properties.  Whenever it returns, the layer has the effective
    type and the given name, is visible exactly when that type is not
    'untyped', and carries the given parameters, or the defaults of the
    effective type when none were given. *)
Theorem createNewLayer_throws_exactly (layerType name : value) (params : json) :
  let effective := or_else layerType (LayerType_ "UNTYPED") in
  (threw (createNewLayer layerType name params) = true
   <-> json_truthy params = false /\ propertiesOf effective = Missing)
  /\ forall layer, createNewLayer layerType name params = Ok layer ->
       layer_type layer = effective
       /\ layer_label layer = name
       /\ layer_visible layer = negb (strict_eq effective (LayerType_ "UNTYPED"))
       /\ (if json_truthy params then layer_parameters layer = params
           else defaultParametersForLayerType effective = Ok (layer_parameters layer)).
Proof.
  intros effective. unfold createNewLayer. fold effective.
  unfold defaultParametersForLayerType.
  destruct (json_truthy params); simpl.
  - split; [split; [done | by intros [? _]]|]. by intros layer [= <-].
  - destruct (propertiesOf effective) as [props| |]; simpl.
    + split; [split; [done | by intros [_ ?]]|]. by intros layer [= <-].
    + split; [split; [done | by intros [_ ?]]|]. by intros layer [= <-].
    + split; [done | done].
Qed.

(** X12.  The three lookups by layer type fail together:
    [defaultParametersForLayerType], [iconForLayerType] and
    [labelForLayerType] throw for exactly the same layer types, those
    without entry in the table of layer properties. *)
Theorem lookups_by_type_fail_together (layerType : value) :
  threw (iconForLayerType layerType) = threw (defaultParametersForLayerType layerType)
  /\ threw (labelForLayerType layerType) = threw (defaultParametersForLayerType layerType)
  /\ (threw (defaultParametersForLayerType layerType) = true
      <-> propertiesOf layerType = Missing).
Proof.
  unfold iconForLayerType, labelForLayerType, defaultParametersForLayerType.
  destruct (propertiesOf layerType); simpl; repeat split; done.
Qed.

(** X13.  Every entry of [LayerTypes], the list of the types offered on
    the user interface, has a label, an icon and default parameters, and
    a layer can be created from it without parameters: none of these
    calls throws. *)
Theorem listed_layer_types_have_properties :
  Forall (fun layerType =>
            (exists l, labelForLayerType layerType = Ok (Some l))
            /\ (exists i, iconForLayerType layerType = Ok (Some i))
            /\ threw (defaultParametersForLayerType layerType) = false
            /\ forall name, threw (createNewLayer layerType name JUndefined) = false)
         LayerTypes.
Proof.
  unfold LayerTypes.
  repeat (apply Forall_cons; split;
          [ split; [eexists; by vm_compute|];
            split; [eexists; by vm_compute|];
            split; [by vm_compute | intros name; by vm_compute] |]).
  apply Forall_nil_2.
Qed.

End LayersMore.

(* ================================================================== *)
(** * More on the UAV feature *)
(* ================================================================== *)

Module UAVFeatureMore.
Import JS JSFacts UAVFeature Samples ExtraReference UAVFeatureFacts.
Local Open Scope N_scope.

Section Invariant.
Context (degreesToRadians : value -> value).
Implicit Types (f : Feature) (v : value).

Lemma setupStyle_reflectsFields f :
  reflectsFields degreesToRadians (_setupStyle degreesToRadians f).
Proof.
  exists (allocated f). simpl. split; [done|]. split; [done|].
  split; [|split].
  - rewrite lookup_insert_ne by lia. by rewrite lookup_insert_eq.
  - by rewrite lookup_insert_eq.
  - by destruct (truthy (_selected f)).
Qed.

Lemma set_heading_reflectsFields f f' v :
  reflectsFields degreesToRadians f ->
  set_heading degreesToRadians v f = Ok f' ->
  reflectsFields degreesToRadians f'.
Proof.
  intros (r & Hi & Hs & Hicon & Hsel & Hstyle). unfold set_heading.
  destruct (strict_eq (_heading f) v); [intros [= <-]; by exists r|].
  simpl. rewrite Hi, Hs. intros [= <-]. exists r. simpl.
  split; [done|]. split; [done|]. unfold setRotation.
  split; [|split; [|done]].
  - rewrite lookup_alter_ne by lia. rewrite lookup_alter_eq, Hicon. done.
  - rewrite lookup_alter_eq, lookup_alter_ne by lia. rewrite Hsel. done.
Qed.

(** X14.  Whatever sequence of assignments to [heading], [selected] and
    [color] a feature has been through since its construction, its icons
    and style array are those its current fields call for: both icons
    are turned by the current heading, the main icon shows the current
    colour, and the style array holds the selection glow first exactly
    when the feature is selected, then the main icon, then the label with
    the UAV id ('undefined' for a falsy id). *)
Theorem style_reflects_fields f :
  reachable degreesToRadians f -> reflectsFields degreesToRadians f.
Proof.
  induction 1 as [id | v f f' _ IH Hset | v f _ IH | v f _ IH].
  - apply setupStyle_reflectsFields.
  - by eapply set_heading_reflectsFields.
  - unfold set_selected. destruct (strict_eq (_selected f) v); [done|].
    apply setupStyle_reflectsFields.
  - unfold set_color. destruct (strict_eq (_color f) v); [done|].
    apply setupStyle_reflectsFields.
Qed.

(** X15.  Assigning the same value twice in a row is the same as
    assigning it once, for every value but NaN: the second assignment
    creates no object and makes no call. *)
Theorem assigning_twice_is_assigning_once f v :
  v <> VNaN ->
  set_selected degreesToRadians v (set_selected degreesToRadians v f)
    = set_selected degreesToRadians v f
  /\ set_color degreesToRadians v (set_color degreesToRadians v f)
    = set_color degreesToRadians v f
  /\ forall f', set_heading degreesToRadians v f = Ok f' ->
       set_heading degreesToRadians v f' = Ok f'.
Proof.
  intros Hv.
  assert (Hsame : strict_eq v v = true) by (by apply strict_eq_true).
  split; [|split].
  - unfold set_selected at 2 3. destruct (strict_eq (_selected f) v) eqn:E.
    + unfold set_selected. by rewrite E.
    + unfold set_selected. simpl. by rewrite Hsame.
  - unfold set_color at 2 3. destruct (strict_eq (_color f) v) eqn:E.
    + unfold set_color. by rewrite E.
    + unfold set_color. simpl. by rewrite Hsame.
  - intros f' Hset. unfold set_heading in *.
    destruct (strict_eq (_heading f) v) eqn:E.
    + injection Hset as <-. by rewrite E.
    + simpl in Hset. destruct (_iconImage f); [destruct (_selectionImage f)|];
        try discriminate; injection Hset as <-; simpl; by rewrite Hsame.
Qed.
End Invariant.

Lemma style_reflects_fields_witness :
  reflectsFields sampleRotation
    (set_color sampleRotation (VString "red")
       (set_selected sampleRotation (VBool true) sampleFeature)).
Proof.
  apply (style_reflects_fields sampleRotation).
  apply reachable_color, reachable_selected, reachable_new.
Defined.

Lemma assigning_twice_is_assigning_once_witness :
  set_selected sampleRotation (VBool true)
    (set_selected sampleRotation (VBool true) sampleFeature)
  = set_selected sampleRotation (VBool true) sampleFeature.
Proof.
  apply (assigning_twice_is_assigning_once sampleRotation sampleFeature (VBool true)).
  discriminate.
Defined.

Example assigning_NaN_twice_turns_the_icons_again :
  forall f1 f2,
    set_heading sampleRotation VNaN sampleFeature = Ok f1 ->
    set_heading sampleRotation VNaN f1 = Ok f2 ->
    length (calls f2) = (length (calls f1) + 2)%nat.
Proof. intros f1 f2 [= <-] [= <-]. reflexivity. Qed.

End UAVFeatureMore.


(* ================================================================== *)
(** * More on the GeoJSON layer *)
(* ================================================================== *)

Module GeoJSONMore.
Import JS Layers GeoJSON GeoJSONPanel Samples ExtraReference GeoJSONFacts.

Section Panel.
Context (JSON_parse : string -> option json) (JSON_stringify : json -> string).
Context (toNumber : json -> json).
Implicit Types (layerId : value) (st : ComponentState) (events : list userEvent).

Let session := session JSON_parse toNumber.
Let click := _handleClick JSON_parse toNumber.

Lemma session_app layerId st events more :
  session layerId st (events ++ more)
  = let (st1, first) := session layerId st events in
    let (st2, later) := session layerId st1 more in
    (st2, first ++ later).
Proof.
  unfold session. revert st.
  induction events as [|e events IH]; intros st; simpl.
  - by destruct (GeoJSONPanel.session _ _ _ st more).
  - destruct (handle JSON_parse toNumber layerId st e) as [st1 dispatched].
    rewrite IH.
    destruct (GeoJSONPanel.session _ _ _ st1 events) as [st2 first].
    destruct (GeoJSONPanel.session _ _ _ st2 more) as [st3 later].
    by rewrite app_assoc.
Qed.

Lemma field_edits_dispatch_nothing layerId st events :
  forallb isFieldEdit events = true ->
  snd (session layerId st events) = []
  /\ data (fst (session layerId st events)) = default (data st) (lastData events)
  /\ strokeWidth (fst (session layerId st events))
     = from_option JString (strokeWidth st) (lastStrokeWidth events).
Proof.
  unfold session, lastData, lastStrokeWidth.
  induction events as [|e events IH] using rev_ind; intros Hedits; [done|].
  rewrite forallb_app in Hedits. apply andb_true_iff in Hedits as [Hevents He].
  specialize (IH Hevents) as (Hnone & Hdata & Hwidth).
  pose proof (session_app layerId st events [e]) as Happ. unfold session in Happ.
  rewrite Happ. clear Happ.
  destruct (GeoJSONPanel.session _ _ _ st events) as [st1 first].
  simpl in Hnone, Hdata, Hwidth. subst first.
  rewrite !omap_app.
  destruct e; try discriminate; simpl.
  - rewrite last_snoc, app_nil_r. simpl. done.
  - rewrite last_snoc, app_nil_r. simpl. done.
Qed.

(** X16.  Typing into the stroke width and data fields dispatches
    nothing, however many edits are made; the click that follows works
    on the texts typed last (on the initial ones for a field that was
    not edited) and dispatches exactly what [_handleClick] dispatches for
    them. *)
Theorem field_edits_are_buffered_until_click layerId st events :
  forallb isFieldEdit events = true ->
  let typed := {| strokeWidth := from_option JString (strokeWidth st)
                                   (lastStrokeWidth events);
                  data := default (data st) (lastData events) |} in
  session layerId st events = (typed, [])
  /\ session layerId st (events ++ [Click]) = (typed, click layerId typed).
Proof.
  intros Hedits typed.
  destruct (field_edits_dispatch_nothing layerId st events Hedits)
    as (Hnone & Hdata & Hwidth).
  assert (Hsession : session layerId st events = (typed, [])).
  { destruct (session layerId st events) as [[w d] acts]. simpl in *.
    by subst. }
  split; [exact Hsession|].
  rewrite session_app, Hsession. simpl. by rewrite app_nil_r.
Qed.

(** X23.  Every click on "Update layer" ends with exactly one
    notification, whatever the fields hold: the success message when the
    data text parses and the error message when it does not; it is the
    last thing the handler dispatches. *)
Theorem every_click_notifies_once layerId st :
  exists message semantics,
    notifications (click layerId st) = [(message, semantics)]
    /\ last (click layerId st) = Some (showNotification message semantics)
    /\ (semantics = "success" <-> is_Some (JSON_parse (data st)))
    /\ (semantics = "error" <-> JSON_parse (data st) = None).
Proof.
  unfold click, _handleClick.
  destruct (JSON_parse (data st)) as [parsedData|].
  - exists "GeoJSON imported successfully.", "success".
    split; [done|]. split; [done|]. split; [split; [by eexists | done]|].
    split; discriminate.
  - exists "Invalid GeoJSON data.", "error".
    split; [done|]. split; [done|]. split; [|done].
    split; [discriminate | by intros [? ?]].
Qed.

(** X17.  Opening the panel on a layer and clicking "Update layer"
    without editing anything leaves the store as it is, provided the
    layer has a stroke width that [toNumber] returns unchanged and data
    that survive [JSON.stringify] followed by [JSON.parse]. *)
Theorem click_without_edits_changes_nothing layerId
    (layers : gmap string StoredLayer) (l : StoredLayer) (width d : json) :
  layers !! to_string layerId = Some l ->
  stored_parameters l !! "strokeWidth" = Some width ->
  toNumber width = width ->
  stored_parameters l !! "data" = Some d ->
  JSON_parse (JSON_stringify d) = Some d ->
  dispatchAll layers
    (click layerId (initialState JSON_stringify (stored_parameters l)))
  = layers.
Proof.
  intros Hl Hwidth Hnumber Hdata Hparse.
  unfold click, _handleClick, initialState. simpl.
  rewrite Hwidth, Hdata. simpl. rewrite Hnumber, Hparse.
  unfold dispatchAll. simpl.
  assert (Hsame : forall (m : gmap string StoredLayer) parameter v,
            m !! to_string layerId = Some l ->
            stored_parameters l !! parameter = Some v ->
            alter (fun l0 => {| stored_type := stored_type l0;
                                stored_parameters :=
                                  <[parameter := v]> (stored_parameters l0) |})
                  (to_string layerId) m = m).
  { intros m parameter v Hm Hv. apply alter_id. intros x Hx.
    rewrite Hm in Hx. injection Hx as <-. rewrite (insert_id _ _ _ Hv).
    by destruct l. }
  rewrite (Hsame layers "strokeWidth" width Hl Hwidth).
  by rewrite (Hsame layers "data" d Hl Hdata).
Qed.
End Panel.

Lemma field_edits_are_buffered_until_click_witness :
  GeoJSONPanel.session sampleParse sampleToNumber (VString "layer1") invalidInput
    [DataChange "{ "; StrokeWidthChange "5"; DataChange "{}"; Click]
  = (validInput,
     [ setLayerParameterById (VString "layer1") "strokeWidth" (num 5);
       setLayerParameterById (VString "layer1") "data" (JObject []);
       showNotification "GeoJSON imported successfully." "success" ]).
Proof.
  pose proof (field_edits_are_buffered_until_click sampleParse sampleToNumber
                (VString "layer1") invalidInput
                [DataChange "{ "; StrokeWidthChange "5"; DataChange "{}"])
    as Hbuffered.
  destruct Hbuffered as [_ Hclick]; [reflexivity|].
  exact Hclick.
Defined.

Lemma click_without_edits_changes_nothing_witness :
  dispatchAll sampleLayers
    (_handleClick sampleParse sampleToNumber (VString "layer1")
       (initialState sampleStringify (stored_parameters sampleLayer)))
  = sampleLayers.
Proof.
  apply (click_without_edits_changes_nothing sampleParse sampleStringify
           sampleToNumber (VString "layer1") sampleLayers sampleLayer
           (num 2) (JObject []));
    reflexivity.
Defined.

Section VectorSource.
Context {Feature : Type} (readFeatures : json -> option (list Feature)).
Import GeoJSONVectorSource.

Let World := World Feature.
Let inSync := inSync Feature readFeatures.
Let step := step Feature readFeatures.

Lemma featuresOf_update (d : json) (w : World) (r : positive) :
  featuresOf Feature (_updateFeaturesFromProps Feature readFeatures d w) r
  = if decide (_sourceRef (component Feature w) = Some r)
    then fst (_parseFeatures Feature readFeatures d)
    else featuresOf Feature w r.
Proof.
  unfold _updateFeaturesFromProps, featuresOf, addFeatures, clear.
  destruct (_parseFeatures Feature readFeatures d) as [features logged]; simpl.
  destruct (_sourceRef (component Feature w)) as [attached|]; simpl.
  - destruct (decide (Some attached = Some r)) as [[= ->]|Hne].
    + by rewrite !lookup_insert_eq.
    + rewrite !lookup_insert_ne by congruence. done.
  - done.
Qed.

Lemma component_update (d : json) (w : World) :
  component Feature (_updateFeaturesFromProps Feature readFeatures d w)
  = component Feature w.
Proof.
  unfold _updateFeaturesFromProps.
  by destruct (_parseFeatures Feature readFeatures d).
Qed.

Lemma step_inSync (w : World) (e : lifecycle) : inSync w -> inSync (step w e).
Proof.
  unfold inSync, GeoJSONVectorSource.inSync, parsed. intros Hsync r.
  destruct e as [v|d]; simpl.
  - unfold _assignSourceRef.
    destruct (decide (_sourceRef (component Feature w) = v)) as [Hsame|Hnew];
      [apply Hsync|].
    assert (Hcleared : forall r',
              default [] ((match _sourceRef (component Feature w) with
                           | Some old => clear Feature old (sources Feature w)
                           | None => sources Feature w
                           end) !! r') = []).
    { intros r'. specialize (Hsync r'). unfold featuresOf in Hsync.
      destruct (_sourceRef (component Feature w)) as [old|]; simpl.
      - unfold clear. destruct (decide (old = r')) as [->|Hne].
        + by rewrite lookup_insert_eq.
        + rewrite lookup_insert_ne by done. rewrite Hsync.
          by rewrite decide_False by congruence.
      - by rewrite Hsync. }
    destruct v as [new|]; simpl.
    + rewrite featuresOf_update, component_update; simpl.
      destruct (decide (Some new = Some r)); [done|]. apply Hcleared.
    + apply Hcleared.
  - unfold componentDidUpdate. rewrite featuresOf_update, component_update; simpl.
    destruct (decide (_sourceRef (component Feature w) = Some r)) as [Hr|Hr];
      [done|].
    specialize (Hsync r). unfold featuresOf in *; simpl.
    by rewrite decide_False in Hsync by done.
Qed.

(** X18.  Through every sequence of ref assignments and data updates
    after construction, the source attached to the component holds
    exactly the features read from the current data (none when the data
    cannot be read) and every other source is empty: features of earlier
    data or of a replaced source never linger. *)
Theorem vector_source_stays_in_sync (d : json) (events : list lifecycle) :
  inSync (run Feature readFeatures (new Feature readFeatures d ∅) events).
Proof.
  assert (Hinit : inSync (new Feature readFeatures d ∅)).
  { intros r. unfold new, parsed. rewrite featuresOf_update, component_update; simpl.
    unfold featuresOf; simpl. by rewrite lookup_empty. }
  unfold run. revert Hinit.
  generalize (new Feature readFeatures d ∅) as w.
  induction events as [|e events IH]; intros w Hsync; simpl; [done|].
  apply IH. by apply step_inSync.
Qed.
End VectorSource.

Section PointMarker.
Import GeoJSONLayer.

(** X19.  The properties handed to the style converter always carry a
    truthy [marker-symbol] for a point feature: the one the feature has,
    or 'marker' when it has none.  Nothing else is changed, and the
    properties of a feature that is not a point are handed on as they
    are. *)
Theorem points_always_get_a_marker (feature : Feature) :
  (isPoint feature = true ->
     json_truthy (default JUndefined (styledProperties feature !! "marker-symbol"))
     = true)
  /\ (json_truthy (default JUndefined (properties feature !! "marker-symbol")) = true
      \/ isPoint feature = false ->
      styledProperties feature = properties feature)
  /\ (forall name, name <> "marker-symbol" ->
        styledProperties feature !! name = properties feature !! name).
Proof.
  unfold styledProperties.
  destruct (json_truthy (default JUndefined (properties feature !! "marker-symbol")))
    eqn:Hmarker, (isPoint feature); simpl; try rewrite Hmarker;
    repeat split; try done; try tauto.
  - by rewrite lookup_insert_eq.
  - intros [?|?]; done.
  - intros name Hname. by rewrite lookup_insert_ne.
Qed.
End PointMarker.

End GeoJSONMore.


(* ================================================================== *)
(** * Hotkeys and the tooltip of the nearest item *)
(* ================================================================== *)

Module HotkeysFacts.
Import Hotkeys.

Section Binding.
Context {Event Action : Type}.
Implicit Types (reduxHandlers : gmap string (unit -> Action))
  (nonReduxHandlers : gmap string (handler Event Action)).

(** X20.  In the handlers bound by [bindHotkeyHandlers], a name that has
    a Redux action creator gets a handler that cancels the default
    action of the event and then dispatches the created action, once,
    even when a plain handler of the same name exists; every other name
    keeps its plain handler untouched; no other name is bound. *)
Theorem bindHotkeyHandlers_lookup reduxHandlers nonReduxHandlers (name : string) :
  bindHotkeyHandlers Event Action reduxHandlers nonReduxHandlers !! name
  = match reduxHandlers !! name with
    | Some actionCreator =>
        Some (fun _ => [preventDefault; dispatch (actionCreator tt)])
    | None => nonReduxHandlers !! name
    end.
Proof.
  unfold bindHotkeyHandlers. rewrite lookup_union, lookup_fmap.
  destruct (reduxHandlers !! name) as [actionCreator|]; simpl.
  - by rewrite union_Some_l.
  - by rewrite (left_id_L None _).
Qed.

Context {Command : Type}.
Context (clearSelection copyCoordinates selectAllUAVFeatures showHotkeyDialog :
           unit -> Action).
Context (callOnSelection : Command -> unit -> Action).
Context (takeoffUAVs landUAVs returnToHomeUAVs : Command).
Context (clearStoreAfterConfirmation : handler Event Action).

Let handlers :=
  handlers Event Action Command clearSelection copyCoordinates
    selectAllUAVFeatures showHotkeyDialog callOnSelection
    takeoffUAVs landUAVs returnToHomeUAVs clearStoreAfterConfirmation.

(** X21.  Of the handlers the application binds, the four navigation
    hotkeys send the keyboard navigation signal that bears their own
    name, together with the event, and neither cancel the default action
    nor dispatch to the store; the three command hotkeys cancel the
    default action and dispatch what [callOnSelection] makes of their
    command; and a name outside the twelve bound ones has no handler. *)
Theorem application_hotkeys :
  (forall name, name ∈ ["SELECT_FIRST"; "SELECT_LAST"; "SELECT_NEXT"; "SELECT_PREVIOUS"] ->
     exists h, handlers !! name = Some h
               /\ forall event, h event = [keyboardNavigationSignal name event])
  /\ (forall name command,
        (name, command) ∈ [ ("SEND_TAKEOFF_COMMAND", takeoffUAVs);
                            ("SEND_LANDING_COMMAND", landUAVs);
                            ("SEND_RTH_COMMAND", returnToHomeUAVs) ] ->
        exists h, handlers !! name = Some h
                  /\ forall event,
                       h event = [preventDefault; dispatch (callOnSelection command tt)])
  /\ (forall name,
        name ∉ [ "CLEAR_SELECTION"; "COPY_COORDINATES"; "SELECT_ALL_DRONES";
                 "SEND_TAKEOFF_COMMAND"; "SEND_LANDING_COMMAND"; "SEND_RTH_COMMAND";
                 "SHOW_HOTKEY_DIALOG"; "CLEAR_STORED_SETTINGS"; "SELECT_FIRST";
                 "SELECT_LAST"; "SELECT_NEXT"; "SELECT_PREVIOUS" ] ->
        handlers !! name = None).
Proof.
  unfold handlers, Hotkeys.handlers. split; [|split].
  - intros name Hname. rewrite bindHotkeyHandlers_lookup.
    repeat (apply elem_of_cons in Hname as [->|Hname];
            [eexists; split; [by vm_compute | done]|]).
    by apply elem_of_nil in Hname.
  - intros name command Hin. rewrite bindHotkeyHandlers_lookup.
    repeat (apply elem_of_cons in Hin as [[= -> ->]|Hin];
            [eexists; split; [by vm_compute | done]|]).
    by apply elem_of_nil in Hin.
  - intros name Hname. rewrite bindHotkeyHandlers_lookup.
    rewrite !not_elem_of_cons in Hname.
    unfold objectLiteral; simpl.
    repeat (rewrite lookup_insert_ne by (intros <-; tauto)).
    by rewrite !lookup_empty.
Qed.
End Binding.

End HotkeysFacts.

Module NearestItemTooltipFacts.
Import JS NearestItemTooltip ExtraReference.

Section Tooltip.
Context (isUavId globalIdToUavId : value -> value).

Let shown := shown isUavId globalIdToUavId.

End Tooltip.


End NearestItemTooltipFacts.
